(** * BD600Spindle: the Folinn BD600 VFD spindle driver of FluidNC

    A shallow embedding of [FluidNC/src/Spindles/BD600Spindle.cpp] and
    [BD600Spindle.h]: the Modbus command frames the driver builds, the
    response parsers of its discovery sequence, the frequency/RPM
    calibration [updateRPM] and the status poller.

    Machine integers are [Z] with the wrap-around of their C++ type written
    out; bytes on the wire are [Byte.byte]; the [msg] array of a Modbus
    command is a list updated by index. *)

From Stdlib Require Import ZArith Lia Strings.Byte.
From stdpp Require Import base tactics option list.

Local Open Scope Z_scope.

(** ** Machine integers and bytes *)

Module Int.

(** Conversion to [uint8_t], [uint16_t] and [uint32_t]. *)
Definition to_u8 (z : Z) : Z := z mod 2 ^ 8.
Definition to_u16 (z : Z) : Z := z mod 2 ^ 16.
Definition to_u32 (z : Z) : Z := z mod 2 ^ 32.

Definition is_u8 (z : Z) : Prop := 0 <= z < 2 ^ 8.
Definition is_u16 (z : Z) : Prop := 0 <= z < 2 ^ 16.
Definition is_u32 (z : Z) : Prop := 0 <= z < 2 ^ 32.

(** The value of a byte, as the integer promotion of a [uint8_t]. *)
Definition byte_to_Z (b : byte) : Z := Z.of_N (Byte.to_N b).

(** Storing an integer into a [uint8_t]: the low eight bits are kept. *)
Definition Z_to_byte (z : Z) : byte :=
  default x00 (Byte.of_N (Z.to_N (to_u8 z))).

(** The 16-bit word read big-endian from two bytes,
    [(hi << 8) | lo] stored into a [uint16_t]. *)
Definition word16 (hi lo : byte) : Z :=
  to_u16 (Z.lor (Z.shiftl (byte_to_Z hi) 8) (byte_to_Z lo)).

End Int.

Import Int.

(** ** Modbus commands *)

(** Modelled from the spec: [ModbusCommand] is declared in the VFD base
    class, which is not among the sources; the spec's CommandFrame gives its
    fields: the transmit length, the expected response length and the
    payload bytes, of which byte 0 (the device address) is filled in by the
    transport. *)
Record ModbusCommand := mkModbusCommand {
  tx_length : Z;
  rx_length : Z;
  msg : list byte
}.

(** [data.msg[i] = v], the value narrowed to [uint8_t]. *)
Definition set_msg (i : nat) (v : Z) (data : ModbusCommand) : ModbusCommand :=
  {| tx_length := tx_length data;
     rx_length := rx_length data;
     msg := <[i := Z_to_byte v]> (msg data) |}.

Definition set_tx_length (n : Z) (data : ModbusCommand) : ModbusCommand :=
  {| tx_length := n; rx_length := rx_length data; msg := msg data |}.

Definition set_rx_length (n : Z) (data : ModbusCommand) : ModbusCommand :=
  {| tx_length := tx_length data; rx_length := n; msg := msg data |}.

(** The command bytes after the address byte: [msg[1] .. msg[5]]. *)
Definition payload (data : ModbusCommand) : list byte :=
  take 5 (drop 1 (msg data)).

(** The 16-bit value a frame carries in bytes 4 (high) and 5 (low). *)
Definition frame_value (data : ModbusCommand) : option Z :=
  hi ← msg data !! 4%nat;
  lo ← msg data !! 5%nat;
  Some (byte_to_Z hi * 256 + byte_to_Z lo).

(** The array has room for a whole command. *)
Definition has_room (data : ModbusCommand) : Prop :=
  (6 <= length (msg data))%nat.

(** ** Driver state *)

Inductive SpindleState := Disable | Cw | Ccw.

(** Messages the driver logs, with the values they print. *)
Inductive LogEvent :=
| WarnFreqOutOfRange (dev_speed minFrequency maxFrequency : Z)
| InfoFreqRange (minHz maxHz minRPM maxRPM : Z)
| InfoRatedRpm (maxRpmAt50Hz : Z)
| InfoPoles (numberPoles : Z)
| ErrorPoles (value : Z)
| InfoAccel (value : Z)
| InfoDecel (value : Z).

(** Calls made to the speed table of the generic spindle. *)
Inductive SpeedCall :=
| ShelfSpeeds (minRPM maxRPM : Z)
| SetupSpeeds (max_dev_speed : Z).

(** Modelled from the spec: the speed table of the generic spindle
    ([_speeds], [shelfSpeeds], [setupSpeeds] of the Spindle base class) is
    not among the sources.  Following the spec, [shelfSpeeds] publishes the
    RPM bounds, after which the table is no longer empty, and [setupSpeeds]
    refreshes the table for a maximum device speed without touching the
    published bounds.  [speed_calls] records the calls received, oldest
    first. *)
Record SpeedTable := mkSpeedTable {
  _speeds : list Z;
  max_dev_speed : option Z;
  speed_calls : list SpeedCall
}.

(** Modelled from the spec: [shelfSpeeds] of the Spindle base class, which
    is not among the sources; it publishes the bounds, and the table holds
    them afterwards. *)
Definition shelfSpeeds (minRPM maxRPM : Z) (t : SpeedTable) : SpeedTable :=
  {| _speeds := [minRPM; maxRPM];
     max_dev_speed := max_dev_speed t;
     speed_calls := speed_calls t ++ [ShelfSpeeds minRPM maxRPM] |}.

(** Modelled from the spec: [setupSpeeds] of the Spindle base class, which
    is not among the sources; it refreshes the table for the maximum device
    speed it is given and leaves the published bounds alone. *)
Definition setupSpeeds (dev : Z) (t : SpeedTable) : SpeedTable :=
  {| _speeds := _speeds t;
     max_dev_speed := Some dev;
     speed_calls := speed_calls t ++ [SetupSpeeds dev] |}.

(** The fields of [BD600Spindle] and those of its base classes the driver
    uses.  [reg] is the [int] cursor of the status poller; the frequencies
    and the pole count are [uint16_t]. *)
Record BD600Spindle := mkBD600Spindle {
  reg : Z;
  _minFrequency : Z;
  _maxFrequency : Z;
  _numberPoles : Z;
  _NumberPhases : Z;
  _maxRpmAt50Hz : Z;
  _slop : Z;
  _sync_dev_speed : Z;
  speeds : SpeedTable;
  log : list LogEvent
}.

(** Field assignments. *)
Definition set_reg (v : Z) (s : BD600Spindle) : BD600Spindle :=
  mkBD600Spindle v (_minFrequency s) (_maxFrequency s) (_numberPoles s)
    (_NumberPhases s) (_maxRpmAt50Hz s) (_slop s) (_sync_dev_speed s)
    (speeds s) (log s).

Definition set_minFrequency (v : Z) (s : BD600Spindle) : BD600Spindle :=
  mkBD600Spindle (reg s) v (_maxFrequency s) (_numberPoles s)
    (_NumberPhases s) (_maxRpmAt50Hz s) (_slop s) (_sync_dev_speed s)
    (speeds s) (log s).

Definition set_maxFrequency (v : Z) (s : BD600Spindle) : BD600Spindle :=
  mkBD600Spindle (reg s) (_minFrequency s) v (_numberPoles s)
    (_NumberPhases s) (_maxRpmAt50Hz s) (_slop s) (_sync_dev_speed s)
    (speeds s) (log s).

Definition set_numberPoles (v : Z) (s : BD600Spindle) : BD600Spindle :=
  mkBD600Spindle (reg s) (_minFrequency s) (_maxFrequency s) v
    (_NumberPhases s) (_maxRpmAt50Hz s) (_slop s) (_sync_dev_speed s)
    (speeds s) (log s).

Definition set_maxRpmAt50Hz (v : Z) (s : BD600Spindle) : BD600Spindle :=
  mkBD600Spindle (reg s) (_minFrequency s) (_maxFrequency s) (_numberPoles s)
    (_NumberPhases s) v (_slop s) (_sync_dev_speed s)
    (speeds s) (log s).

Definition set_slop (v : Z) (s : BD600Spindle) : BD600Spindle :=
  mkBD600Spindle (reg s) (_minFrequency s) (_maxFrequency s) (_numberPoles s)
    (_NumberPhases s) (_maxRpmAt50Hz s) v (_sync_dev_speed s)
    (speeds s) (log s).

Definition set_sync_dev_speed (v : Z) (s : BD600Spindle) : BD600Spindle :=
  mkBD600Spindle (reg s) (_minFrequency s) (_maxFrequency s) (_numberPoles s)
    (_NumberPhases s) (_maxRpmAt50Hz s) (_slop s) v
    (speeds s) (log s).

Definition set_speeds (t : SpeedTable) (s : BD600Spindle) : BD600Spindle :=
  mkBD600Spindle (reg s) (_minFrequency s) (_maxFrequency s) (_numberPoles s)
    (_NumberPhases s) (_maxRpmAt50Hz s) (_slop s) (_sync_dev_speed s)
    t (log s).

(** [log_warn], [log_info] and [log_error]: the message is appended to the
    log. *)
Definition log_event (e : LogEvent) (s : BD600Spindle) : BD600Spindle :=
  mkBD600Spindle (reg s) (_minFrequency s) (_maxFrequency s) (_numberPoles s)
    (_NumberPhases s) (_maxRpmAt50Hz s) (_slop s) (_sync_dev_speed s)
    (speeds s) (log s ++ [e]).

(** A freshly constructed driver: the member initialisers of the header give
    the frequencies, the poles and the phases.  [reg] has no initialiser and
    the other fields belong to the base classes, so their first values are
    left open; the speed table [t] is what the configuration provides, empty
    when no speed map is configured. *)
Definition BD600Spindle_new (reg0 rpm50 slop0 sync0 : Z) (t : SpeedTable)
  : BD600Spindle :=
  {| reg := reg0;
     _minFrequency := 100;
     _maxFrequency := 400;
     _numberPoles := 4;
     _NumberPhases := 3;
     _maxRpmAt50Hz := rpm50;
     _slop := slop0;
     _sync_dev_speed := sync0;
     speeds := t;
     log := [] |}.

Definition empty_table : SpeedTable :=
  {| _speeds := []; max_dev_speed := None; speed_calls := [] |}.

(** The [uint16_t] fields hold 16-bit values. *)
Definition valid (s : BD600Spindle) : Prop :=
  is_u16 (_minFrequency s) /\ is_u16 (_maxFrequency s).

(** ** Commands *)

Definition direction_command (mode : SpindleState) (data : ModbusCommand)
  : ModbusCommand :=
  let data := set_tx_length 6 data in
  let data := set_rx_length 6 data in
  let data := set_msg 1 0x06 data in
  let data := set_msg 2 0x10 data in
  let data := set_msg 3 0x00 data in
  let data := set_msg 4 0x00 data in
  match mode with
  | Cw => set_msg 5 0x01 data
  | Ccw => set_msg 5 0x02 data
  | Disable => set_msg 5 0x05 data
  end.

(** The range test of [set_speed_command]. *)
Definition out_of_range (dev_speed : Z) (s : BD600Spindle) : bool :=
  negb (dev_speed =? 0)
  && ((dev_speed <? _minFrequency s) || (dev_speed >? _maxFrequency s)).

(** [(dev_speed / _maxFrequency) * 100 * 100] in [uint32_t] arithmetic. *)
Definition speed_percentage (dev_speed maxFrequency : Z) : Z :=
  to_u32 (to_u32 (dev_speed / maxFrequency * 100) * 100).

(** [set_speed_command]: the warning, then the frame.  A division by a zero
    [_maxFrequency] has no result. *)
Definition set_speed_command (dev_speed : Z) (data : ModbusCommand)
    (s : BD600Spindle) : option (ModbusCommand * BD600Spindle) :=
  let s :=
    if out_of_range dev_speed s
    then log_event
           (WarnFreqOutOfRange dev_speed (_minFrequency s) (_maxFrequency s)) s
    else s in
  if _maxFrequency s =? 0 then None
  else
    let pct := speed_percentage dev_speed (_maxFrequency s) in
    let data := set_tx_length 6 data in
    let data := set_rx_length 6 data in
    let data := set_msg 1 0x06 data in
    let data := set_msg 2 0x30 data in
    let data := set_msg 3 0x00 data in
    let data := set_msg 4 (Z.shiftr pct 8) data in
    let data := set_msg 5 (Z.land pct 0xFF) data in
    Some (data, s).

(** ** Calibration *)

Definition updateRPM (s : BD600Spindle) : BD600Spindle :=
  let s :=
    if _minFrequency s >? _maxFrequency s
    then set_minFrequency (_maxFrequency s) s
    else s in
  let s :=
    if (length (_speeds (speeds s)) =? 0)%nat
    then
      let minRPM := to_u32 (_minFrequency s * 60 ÷ 100) in
      let maxRPM := to_u32 (_maxFrequency s * 60 ÷ 100) in
      set_speeds (shelfSpeeds minRPM maxRPM (speeds s)) s
    else s in
  let s := set_speeds (setupSpeeds (_maxFrequency s) (speeds s)) s in
  set_slop (Z.max (_maxFrequency s ÷ 40) 1) s.

(** ** Discovery sequence *)

(** A response parser gets the response and the driver; it answers whether
    the response was accepted.  It has no result on a response shorter than
    the offsets it reads. *)
Definition response_parser : Type :=
  list byte -> BD600Spindle -> option (bool * BD600Spindle).

(** [(response[4] << 8) | response[5]] as a [uint16_t]. *)
Definition read_u16 (response : list byte) : option Z :=
  hi ← response !! 4%nat;
  lo ← response !! 5%nat;
  Some (word16 hi lo).

(** [response[4]] as a [uint8_t]. *)
Definition read_u8 (response : list byte) : option Z :=
  b ← response !! 4%nat;
  Some (byte_to_Z b).

(** Step -1, PD005: the maximum frequency. *)
Definition parse_max_frequency : response_parser := fun response s =>
  value ← read_u16 response;
  Some (true, set_maxFrequency value s).

(** Step -2, PD011: the minimum frequency. *)
Definition parse_min_frequency : response_parser := fun response s =>
  value ← read_u16 response;
  let s := set_minFrequency value s in
  let s :=
    log_event
      (InfoFreqRange (_minFrequency s ÷ 100) (_maxFrequency s ÷ 100)
         (_minFrequency s ÷ 100 * 60) (_maxFrequency s ÷ 100 * 60)) s in
  Some (true, s).

(** Step -3, PD144: the rated revolutions at 50 Hz. *)
Definition parse_rated_rpm : response_parser := fun response s =>
  value ← read_u16 response;
  let s := set_maxRpmAt50Hz value s in
  let s := log_event (InfoRatedRpm (_maxRpmAt50Hz s)) s in
  Some (true, updateRPM s).

(** Step -4, PD143: the number of poles, a single byte. *)
Definition parse_poles : response_parser := fun response s =>
  value ← read_u8 response;
  if (value <=? 4) && (value >=? 2)
  then
    let s := set_numberPoles value s in
    let s := log_event (InfoPoles (_numberPoles s)) s in
    Some (true, updateRPM s)
  else Some (false, log_event (ErrorPoles value) s).

(** Steps -5 and -6, PD014 and PD015: acceleration and deceleration, logged
    only (the log prints the value divided by ten). *)
Definition parse_accel : response_parser := fun response s =>
  value ← read_u16 response;
  Some (true, log_event (InfoAccel value) s).

Definition parse_decel : response_parser := fun response s =>
  value ← read_u16 response;
  Some (true, log_event (InfoDecel value) s).

(** The part of [initialization_sequence] before the [switch]. *)
Definition read_setting_prologue (data : ModbusCommand) : ModbusCommand :=
  let data := set_tx_length 6 data in
  let data := set_rx_length 6 data in
  let data := set_msg 1 0x01 data in
  let data := set_msg 2 0x03 data in
  let data := set_msg 4 0x00 data in
  set_msg 5 0x00 data.

(** [initialization_sequence]: the command written to [data] and the parser
    returned, [None] for [nullptr]. *)
Definition initialization_sequence (index : Z) (data : ModbusCommand)
  : ModbusCommand * option response_parser :=
  let data := read_setting_prologue data in
  match index with
  | -1 => (set_msg 3 5 data, Some parse_max_frequency)
  | -2 => (set_msg 3 11 data, Some parse_min_frequency)
  | -3 => (set_msg 3 144 data, Some parse_rated_rpm)
  | -4 => (set_msg 3 143 (set_rx_length 5 data), Some parse_poles)
  | -5 => (set_msg 3 14 data, Some parse_accel)
  | -6 => (set_msg 3 15 data, Some parse_decel)
  | _ => (data, None)
  end.

(** ** Status polling *)

Definition parse_status : response_parser := fun response s =>
  Some (true, s).

Definition get_status_ok (data : ModbusCommand) (s : BD600Spindle)
  : ModbusCommand * BD600Spindle * response_parser :=
  let data := set_tx_length 6 data in
  let data := set_rx_length 6 data in
  let data := set_msg 1 0x04 data in
  let data := set_msg 2 0x03 data in
  let data := set_msg 3 (reg s) data in
  let data := set_msg 4 0x00 data in
  let data := set_msg 5 0x00 data in
  let s := if reg s <? 0x03 then set_reg (reg s + 1) s else set_reg 0x00 s in
  (data, s, parse_status).

Definition parse_current_speed : response_parser := fun response s =>
  frequency ← read_u16 response;
  Some (true, set_sync_dev_speed frequency s).

Definition get_current_speed (data : ModbusCommand)
  : ModbusCommand * response_parser :=
  let data := set_tx_length 6 data in
  let data := set_rx_length 6 data in
  let data := set_msg 1 0x04 data in
  let data := set_msg 2 0x03 data in
  let data := set_msg 3 0x01 data in
  let data := set_msg 4 0x00 data in
  let data := set_msg 5 0x00 data in
  (data, parse_current_speed).

(** ** Round trips *)

(** The steps of the discovery sequence. *)
Definition discovery_steps : list Z := [-1; -2; -3; -4; -5; -6].

(** One round trip of the discovery sequence: the command for [index] is
    built and the parser returned with it is applied to the response.  There
    is no round trip when the parser is null. *)
Definition discover (index : Z) (response : list byte) (data : ModbusCommand)
    (s : BD600Spindle) : option (ModbusCommand * bool * BD600Spindle) :=
  let '(data, p) := initialization_sequence index data in
  parser ← p;
  '(ok, s) ← parser response s;
  Some (data, ok, s).

(** Round trips in a row, each with its response; the answers of the parsers
    are collected. *)
Fixpoint run_discovery (steps : list (Z * list byte)) (data : ModbusCommand)
    (s : BD600Spindle) : option (list bool * BD600Spindle) :=
  match steps with
  | [] => Some ([], s)
  | (index, response) :: steps =>
      '(data, ok, s) ← discover index response data s;
      '(oks, s) ← run_discovery steps data s;
      Some (ok :: oks, s)
  end.

(** What can happen to the driver: a discovery round trip, a status poll
    with its response, a read of the current speed with its response, a
    speed or direction command, a calibration. *)
Inductive Event :=
| Discovery (index : Z) (response : list byte)
| StatusPoll (response : list byte)
| CurrentSpeed (response : list byte)
| SetSpeed (dev_speed : Z)
| Direction (mode : SpindleState)
| Calibration.

(** The driver after an event; an event without a result (a null parser, a
    short response, a division by zero) leaves it as it was. *)
Definition after (data : ModbusCommand) (e : Event) (s : BD600Spindle)
  : BD600Spindle :=
  match e with
  | Discovery index response =>
      match discover index response data s with
      | Some (_, _, s') => s'
      | None => s
      end
  | StatusPoll response =>
      let '(_, s1, parser) := get_status_ok data s in
      match parser response s1 with
      | Some (_, s') => s'
      | None => s1
      end
  | CurrentSpeed response =>
      let '(_, parser) := get_current_speed data in
      match parser response s with
      | Some (_, s') => s'
      | None => s
      end
  | SetSpeed dev_speed =>
      match set_speed_command dev_speed data s with
      | Some (_, s') => s'
      | None => s
      end
  | Direction _ => s
  | Calibration => updateRPM s
  end.

Definition run (data : ModbusCommand) (events : list Event)
    (s : BD600Spindle) : BD600Spindle :=
  foldl (fun s e => after data e s) s events.

(** The number of times the bounds were published to the speed table. *)
Definition is_shelf (c : SpeedCall) : bool :=
  match c with
  | ShelfSpeeds _ _ => true
  | SetupSpeeds _ => false
  end.

Definition published_count (t : SpeedTable) : nat :=
  length (List.filter is_shelf (speed_calls t)).

(** The register bytes of [n] status polls in a row. *)
Fixpoint status_registers (n : nat) (data : ModbusCommand) (s : BD600Spindle)
  : list (option byte) :=
  match n with
  | O => []
  | S n =>
      let '(data, s, _) := get_status_ok data s in
      msg data !! 3%nat :: status_registers n data s
  end.

(** A driver as constructed, with an empty speed table, and a command whose
    bytes are all zero. *)
Definition default_spindle : BD600Spindle :=
  BD600Spindle_new 0 0 0 0 empty_table.

Definition blank_command : ModbusCommand :=
  mkModbusCommand 0 0 (replicate 16 x00).

(** The driver after the range test of [set_speed_command]. *)
Definition warned (dev_speed : Z) (s : BD600Spindle) : BD600Spindle :=
  if out_of_range dev_speed s
  then log_event
         (WarnFreqOutOfRange dev_speed (_minFrequency s) (_maxFrequency s)) s
  else s.

(** What a step of the driver keeps: once the speed table is filled, its
    entries and the number of publications; and the range of the 16-bit
    frequencies. *)
Definition keeps_table (s s' : BD600Spindle) : Prop :=
  _speeds (speeds s) <> [] ->
  _speeds (speeds s') = _speeds (speeds s) /\
  published_count (speeds s') = published_count (speeds s).

Definition preserved (s s' : BD600Spindle) : Prop :=
  keeps_table s s' /\ (valid s -> valid s').

(** A command whose bytes are all [ff], as a buffer used before may be. *)
Definition stale_command : ModbusCommand :=
  mkModbusCommand 0 0 (replicate 16 xff).

(** What building a command leaves of the array it is given: its length,
    the address byte [msg[0]] and every byte from offset 6 on. *)
Definition untouched (data data' : ModbusCommand) : Prop :=
  length (msg data') = length (msg data) /\
  msg data' !! 0%nat = msg data !! 0%nat /\
  drop 6 (msg data') = drop 6 (msg data).

(** The parsers that read a 16-bit value. *)
Definition word_parsers : list response_parser :=
  [parse_max_frequency; parse_min_frequency; parse_rated_rpm;
   parse_accel; parse_decel; parse_current_speed].

(** [n] status polls in a row, each answered with [response]. *)
Definition status_polls (n : nat) (response : list byte) : list Event :=
  replicate n (StatusPoll response).

(** ** Proof steps *)

(** Names the first six bytes of a command that has room for them. *)
Ltac open_command data H :=
  let tx := fresh "tx" in
  let rx := fresh "rx" in
  let m := fresh "m" in
  destruct data as [tx rx m];
  unfold has_room in H; simpl in H;
  do 6 (destruct m as [|? m]; [simpl in H; lia|]);
  clear H.

(** The cases of [updateRPM]: whether the frequencies are out of order, and
    whether the speed table is empty. *)
Ltac updateRPM_cases s :=
  unfold updateRPM;
  destruct (Z.gtb_spec (_minFrequency s) (_maxFrequency s));
  simpl;
  destruct (Nat.eqb_spec (length (_speeds (speeds s))) 0);
  simpl.

(** * Properties *)

(** ** Bytes and machine integers *)

Section Bytes.

Lemma byte_to_Z_range (b : byte) : 0 <= byte_to_Z b < 256.
Proof.
  unfold byte_to_Z. pose proof (Byte.to_N_bounded b). lia.
Qed.

Lemma to_u8_range (z : Z) : 0 <= to_u8 z < 256.
Proof. unfold to_u8. apply Z.mod_pos_bound. lia. Qed.

Lemma byte_to_Z_to_byte (z : Z) : byte_to_Z (Z_to_byte z) = to_u8 z.
Proof.
  unfold Z_to_byte, byte_to_Z.
  pose proof (to_u8_range z) as Hr.
  destruct (Byte.of_N (Z.to_N (to_u8 z))) as [b|] eqn:Hb; simpl.
  - apply Byte.to_of_N in Hb. rewrite Hb. lia.
  - apply Byte.of_N_None_iff in Hb. lia.
Qed.

Lemma Z_to_byte_to_Z (b : byte) : Z_to_byte (byte_to_Z b) = b.
Proof.
  unfold Z_to_byte, byte_to_Z, to_u8.
  pose proof (Byte.to_N_bounded b).
  rewrite Z.mod_small by lia.
  rewrite N2Z.id, Byte.of_to_N. reflexivity.
Qed.

Lemma byte_to_Z_inj (a b : byte) : byte_to_Z a = byte_to_Z b -> a = b.
Proof.
  intros H. rewrite <- (Z_to_byte_to_Z a), <- (Z_to_byte_to_Z b).
  now rewrite H.
Qed.

(** The high and the low byte of a value make up its low 16 bits. *)
Lemma split_u16 (x : Z) :
  to_u8 (Z.shiftr x 8) * 256 + to_u8 (Z.land x 0xFF) = to_u16 x.
Proof.
  unfold to_u8, to_u16.
  change 0xFF with (Z.ones 8).
  rewrite Z.land_ones, Z.shiftr_div_pow2 by lia.
  rewrite Z.mod_mod by lia.
  change (2 ^ 16) with (2 ^ 8 * 2 ^ 8).
  rewrite Z.rem_mul_r by lia. lia.
Qed.

Lemma to_u16_to_u32 (x : Z) : to_u16 (to_u32 x) = to_u16 x.
Proof.
  unfold to_u16, to_u32. apply Z.mod_mod_divide.
  exists (2 ^ 16). reflexivity.
Qed.

Lemma speed_percentage_u16 (dev_speed maxFrequency : Z) :
  to_u16 (speed_percentage dev_speed maxFrequency)
  = (dev_speed / maxFrequency * 10000) mod 2 ^ 16.
Proof.
  unfold speed_percentage. rewrite to_u16_to_u32.
  unfold to_u16 at 1. rewrite <- Z.mul_mod_idemp_l by lia.
  fold (to_u16 (to_u32 (dev_speed / maxFrequency * 100))).
  rewrite to_u16_to_u32. unfold to_u16.
  rewrite Z.mul_mod_idemp_l by lia. f_equal. lia.
Qed.

(** Two bytes read big-endian: the shifted high byte and the low byte
    have no bit in common. *)
Lemma word16_value (hi lo : byte) :
  word16 hi lo = byte_to_Z hi * 256 + byte_to_Z lo.
Proof.
  unfold word16, to_u16.
  pose proof (byte_to_Z_range hi) as Hh.
  pose proof (byte_to_Z_range lo) as Hl.
  assert (Hd : Z.land (Z.shiftl (byte_to_Z hi) 8) (byte_to_Z lo) = 0).
  { apply Z.bits_inj'. intros n Hn.
    rewrite Z.land_spec, Z.bits_0.
    destruct (Z.lt_ge_cases n 8) as [Hlt|Hge].
    - rewrite Z.shiftl_spec_low by lia. reflexivity.
    - rewrite (Z.bits_above_log2 (byte_to_Z lo) n).
      + apply andb_false_r.
      + lia.
      + destruct (Z.eq_dec (byte_to_Z lo) 0) as [->|Hnz]; [simpl; lia|].
        apply Z.log2_lt_pow2; [lia|].
        apply Z.lt_le_trans with (2 ^ 8); [lia|].
        apply Z.pow_le_mono_r; lia. }
  pose proof (Z.add_lor_land (Z.shiftl (byte_to_Z hi) 8) (byte_to_Z lo)) as Ha.
  rewrite Hd, Z.add_0_r in Ha. rewrite Ha.
  rewrite Z.shiftl_mul_pow2 by lia.
  change (2 ^ 8) with 256. apply Z.mod_small. lia.
Qed.

End Bytes.

(** ** Command frames *)

Lemma out_of_range_spec (dev_speed : Z) (s : BD600Spindle) :
  out_of_range dev_speed s = true <->
  dev_speed <> 0 /\
  (dev_speed < _minFrequency s \/ _maxFrequency s < dev_speed).
Proof.
  unfold out_of_range.
  rewrite andb_true_iff, negb_true_iff, orb_true_iff.
  rewrite Z.eqb_neq, Z.ltb_lt, Z.gtb_ltb, Z.ltb_lt. reflexivity.
Qed.

Lemma warned_maxFrequency (dev_speed : Z) (s : BD600Spindle) :
  _maxFrequency (warned dev_speed s) = _maxFrequency s.
Proof. unfold warned. destruct (out_of_range dev_speed s); reflexivity. Qed.

(** The direction frames: a write of 1, 2 or 5 to register 0x1000. *)
Lemma direction_command_payload (mode : SpindleState) (data : ModbusCommand) :
  has_room data ->
  tx_length (direction_command mode data) = 6 /\
  rx_length (direction_command mode data) = 6 /\
  payload (direction_command mode data)
  = [x06; x10; x00; x00;
     match mode with Cw => x01 | Ccw => x02 | Disable => x05 end].
Proof.
  intros Hroom. open_command data Hroom. destruct mode; repeat split.
Qed.

(** C1 (as amended): for every 32-bit target frequency [dev_speed] and every
    [_maxFrequency > 0], [set_speed_command] builds a write frame to register
    0x3000, with payload bytes [06 30 00 pctHigh pctLow] and both lengths 6,
    whose 16-bit value is the low 16 bits of
    [(dev_speed / _maxFrequency) * 10000], the division being the integer
    division done before the multiplication; it is that product itself
    whenever the quotient is at most 6.  A non-zero [dev_speed] outside
    [[_minFrequency, _maxFrequency]] adds the warning to the log and changes
    nothing else: the frame is the same. *)
Theorem set_speed_command_frame
    (dev_speed : Z) (data : ModbusCommand) (s : BD600Spindle) :
  is_u32 dev_speed -> 0 < _maxFrequency s -> has_room data ->
  exists (data' : ModbusCommand) (pctHigh pctLow : byte),
    set_speed_command dev_speed data s = Some (data', warned dev_speed s) /\
    tx_length data' = 6 /\ rx_length data' = 6 /\
    payload data' = [x06; x30; x00; pctHigh; pctLow] /\
    frame_value data' = Some (byte_to_Z pctHigh * 256 + byte_to_Z pctLow) /\
    byte_to_Z pctHigh * 256 + byte_to_Z pctLow
      = (dev_speed / _maxFrequency s * 10000) mod 2 ^ 16 /\
    (dev_speed / _maxFrequency s <= 6 ->
     byte_to_Z pctHigh * 256 + byte_to_Z pctLow
       = dev_speed / _maxFrequency s * 10000) /\
    (dev_speed <> 0 /\
     (dev_speed < _minFrequency s \/ _maxFrequency s < dev_speed) ->
     warned dev_speed s
       = log_event
           (WarnFreqOutOfRange dev_speed (_minFrequency s) (_maxFrequency s))
           s) /\
    (~ (dev_speed <> 0 /\
        (dev_speed < _minFrequency s \/ _maxFrequency s < dev_speed)) ->
     warned dev_speed s = s).
Proof.
  intros Hu Hmax Hroom.
  set (pct := speed_percentage dev_speed (_maxFrequency s)).
  assert (Hv : byte_to_Z (Z_to_byte (Z.shiftr pct 8)) * 256
               + byte_to_Z (Z_to_byte (Z.land pct 0xFF))
               = (dev_speed / _maxFrequency s * 10000) mod 2 ^ 16).
  { rewrite !byte_to_Z_to_byte, split_u16. apply speed_percentage_u16. }
  exists (set_msg 5 (Z.land pct 0xFF)
            (set_msg 4 (Z.shiftr pct 8)
               (set_msg 3 0x00
                  (set_msg 2 0x30
                     (set_msg 1 0x06
                        (set_rx_length 6 (set_tx_length 6 data))))))).
  exists (Z_to_byte (Z.shiftr pct 8)), (Z_to_byte (Z.land pct 0xFF)).
  split.
  { unfold set_speed_command. fold (warned dev_speed s).
    rewrite warned_maxFrequency.
    destruct (Z.eqb_spec (_maxFrequency s) 0) as [E|_]; [lia|]. reflexivity. }
  split; [reflexivity|]. split; [reflexivity|].
  split. { open_command data Hroom. reflexivity. }
  split. { open_command data Hroom. reflexivity. }
  split; [exact Hv|].
  split.
  { intros Hq. rewrite Hv. apply Z.mod_small.
    assert (0 <= dev_speed / _maxFrequency s).
    { apply Z.div_pos; [apply Hu | exact Hmax]. }
    lia. }
  unfold warned. split.
  - intros H. apply out_of_range_spec in H. now rewrite H.
  - intros H. destruct (out_of_range dev_speed s) eqn:E; [|reflexivity].
    apply out_of_range_spec in E. contradiction.
Qed.

Lemma set_speed_command_frame_witness :
  is_u32 800 /\ 0 < _maxFrequency default_spindle /\
  has_room blank_command /\
  (set_speed_command 800 blank_command default_spindle
     ≫= fun r => frame_value r.1) = Some 20000.
Proof.
  assert (Hu : is_u32 800) by (unfold is_u32; lia).
  assert (Hm : 0 < _maxFrequency default_spindle) by (simpl; lia).
  assert (Hr : has_room blank_command) by (unfold has_room; simpl; lia).
  split; [exact Hu|]. split; [exact Hm|]. split; [exact Hr|].
  destruct (set_speed_command_frame 800 blank_command default_spindle Hu Hm Hr)
    as (data' & hi & lo & H1 & _ & _ & _ & H5 & _ & H7 & _).
  rewrite H1. simpl. rewrite H5. f_equal. apply H7.
  vm_compute. discriminate.
Defined.

(** C1, as stated, fails: with the constructor's [_maxFrequency = 400] and
    [dev_speed = 2800] the quotient is 7, the product 70000 does not fit the
    two bytes, and the frame carries 70000 - 65536 = 4464. *)
Lemma set_speed_command_value_wraps :
  is_u32 2800 /\ 0 < _maxFrequency default_spindle /\
  has_room blank_command /\
  2800 / _maxFrequency default_spindle * 10000 = 70000 /\
  (set_speed_command 2800 blank_command default_spindle
     ≫= fun r => frame_value r.1) = Some 4464 /\
  (set_speed_command 2800 blank_command default_spindle
     ≫= fun r => frame_value r.1)
    <> Some (2800 / _maxFrequency default_spindle * 10000).
Proof.
  split; [unfold is_u32; lia|].
  split; [simpl; lia|].
  split; [unfold has_room; simpl; lia|].
  split; [reflexivity|].
  split; [reflexivity|].
  vm_compute. discriminate.
Qed.

(** C2: with [_maxFrequency = 40000] and [dev_speed = 20000] the quotient of
    the integer division is 0, so the percentage bytes are [00 00]: the
    frame carries 0, not 5000. *)
Theorem set_speed_command_half_speed :
  (set_speed_command 20000 blank_command
     (set_maxFrequency 40000 default_spindle)
     ≫= fun r => Some (payload r.1, frame_value r.1))
  = Some ([x06; x30; x00; x00; x00], Some 0)
  /\ 20000 * 10000 / 40000 = 5000
  /\ speed_percentage 20000 40000 = 0.
Proof. split; [reflexivity|]. split; reflexivity. Qed.

(** ** Calibration *)

Lemma updateRPM_maxFrequency (s : BD600Spindle) :
  _maxFrequency (updateRPM s) = _maxFrequency s.
Proof. updateRPM_cases s; reflexivity. Qed.

Lemma updateRPM_minFrequency (s : BD600Spindle) :
  _minFrequency (updateRPM s) = Z.min (_minFrequency s) (_maxFrequency s).
Proof. updateRPM_cases s; lia. Qed.

Lemma updateRPM_slop (s : BD600Spindle) :
  _slop (updateRPM s) = Z.max (_maxFrequency s ÷ 40) 1.
Proof. updateRPM_cases s; reflexivity. Qed.

Lemma updateRPM_numberPoles (s : BD600Spindle) :
  _numberPoles (updateRPM s) = _numberPoles s.
Proof. updateRPM_cases s; reflexivity. Qed.

Lemma updateRPM_log (s : BD600Spindle) : log (updateRPM s) = log s.
Proof. updateRPM_cases s; reflexivity. Qed.

Lemma updateRPM_valid (s : BD600Spindle) : valid s -> valid (updateRPM s).
Proof.
  unfold valid, is_u16.
  rewrite updateRPM_minFrequency, updateRPM_maxFrequency. lia.
Qed.

(** The RPM of a 16-bit frequency in centiHz fits the [int] product and the
    [uint32_t] it is stored in. *)
Lemma rpm_of_u16 (f : Z) : is_u16 f -> to_u32 (f * 60 ÷ 100) = f * 60 / 100.
Proof.
  unfold is_u16, to_u32. intros Hf.
  rewrite Z.quot_div_nonneg by lia.
  apply Z.mod_small. split.
  - apply Z.div_pos; lia.
  - apply Z.div_lt_upper_bound; lia.
Qed.

(** The speed table after a calibration that finds it empty: the bounds are
    published, then the table is set up. *)
Lemma updateRPM_speeds_empty (s : BD600Spindle) :
  _speeds (speeds s) = [] ->
  speeds (updateRPM s)
  = setupSpeeds (_maxFrequency s)
      (shelfSpeeds
         (to_u32 (Z.min (_minFrequency s) (_maxFrequency s) * 60 ÷ 100))
         (to_u32 (_maxFrequency s * 60 ÷ 100))
         (speeds s)).
Proof.
  intros He. updateRPM_cases s; rewrite He in *; simpl in *; try congruence.
  - now rewrite Z.min_r by lia.
  - now rewrite Z.min_l by lia.
Qed.

(** The speed table after a calibration that finds it filled: it is only
    set up. *)
Lemma updateRPM_speeds_filled (s : BD600Spindle) :
  _speeds (speeds s) <> [] ->
  speeds (updateRPM s) = setupSpeeds (_maxFrequency s) (speeds s).
Proof.
  intros Hne. updateRPM_cases s; try reflexivity;
    destruct (_speeds (speeds s)); simpl in *; congruence.
Qed.

Lemma updateRPM_speeds_nonempty (s : BD600Spindle) :
  _speeds (speeds (updateRPM s)) <> [].
Proof.
  destruct (_speeds (speeds s)) as [|x l] eqn:E.
  - rewrite updateRPM_speeds_empty by exact E. simpl. discriminate.
  - rewrite updateRPM_speeds_filled by congruence. simpl. congruence.
Qed.

(** C6: a calibration that finds [_minFrequency > _maxFrequency] leaves
    [_minFrequency = _maxFrequency], and after every calibration
    [_minFrequency <= _maxFrequency]. *)
Theorem updateRPM_repairs_order :
  (forall s : BD600Spindle,
     _minFrequency s > _maxFrequency s ->
     _minFrequency (updateRPM s) = _maxFrequency (updateRPM s)) /\
  (forall s : BD600Spindle,
     _minFrequency (updateRPM s) <= _maxFrequency (updateRPM s)).
Proof.
  split; intros s; rewrite updateRPM_minFrequency, updateRPM_maxFrequency; lia.
Qed.

(** C7: for [_maxFrequency] from 100 to 4000 centiHz the slop a calibration
    computes is [max (_maxFrequency / 40) 1], and a larger [_maxFrequency]
    never gives a smaller slop. *)
Theorem updateRPM_slop_monotone :
  (forall s : BD600Spindle,
     100 <= _maxFrequency s <= 4000 ->
     _slop (updateRPM s) = Z.max (_maxFrequency s / 40) 1) /\
  (forall s1 s2 : BD600Spindle,
     100 <= _maxFrequency s1 <= 4000 ->
     100 <= _maxFrequency s2 <= 4000 ->
     _maxFrequency s1 <= _maxFrequency s2 ->
     _slop (updateRPM s1) <= _slop (updateRPM s2)).
Proof.
  split.
  - intros s H. rewrite updateRPM_slop.
    now rewrite Z.quot_div_nonneg by lia.
  - intros s1 s2 H1 H2 Hle. rewrite !updateRPM_slop.
    rewrite !Z.quot_div_nonneg by lia.
    apply Z.max_le_compat_r. apply Z.div_le_mono; lia.
Qed.

(** C10: [updateRPM] never changes [_maxFrequency]; it changes
    [_minFrequency] only when it is above [_maxFrequency], and then lowers it
    to [_maxFrequency]; [_numberPoles], [_maxRpmAt50Hz] and every other field
    but [_slop] and the speed table stay as they were. *)
Theorem updateRPM_frame (s : BD600Spindle) :
  _maxFrequency (updateRPM s) = _maxFrequency s /\
  _numberPoles (updateRPM s) = _numberPoles s /\
  _maxRpmAt50Hz (updateRPM s) = _maxRpmAt50Hz s /\
  _minFrequency (updateRPM s)
    = (if _minFrequency s >? _maxFrequency s
       then _maxFrequency s else _minFrequency s) /\
  _NumberPhases (updateRPM s) = _NumberPhases s /\
  reg (updateRPM s) = reg s /\
  _sync_dev_speed (updateRPM s) = _sync_dev_speed s /\
  log (updateRPM s) = log s /\
  updateRPM s
    = set_slop (_slop (updateRPM s))
        (set_speeds (speeds (updateRPM s))
           (set_minFrequency (_minFrequency (updateRPM s)) s)).
Proof.
  destruct s as [r fmin fmax poles phases rpm50 slop sync [sp dev calls] lg].
  unfold updateRPM. simpl.
  destruct (Z.gtb_spec fmin fmax); simpl; destruct sp; simpl;
    repeat split.
Qed.

Lemma updateRPM_repairs_order_witness :
  _minFrequency (set_minFrequency 500 default_spindle)
    > _maxFrequency (set_minFrequency 500 default_spindle) /\
  _minFrequency (updateRPM (set_minFrequency 500 default_spindle))
    = _maxFrequency (updateRPM (set_minFrequency 500 default_spindle)) /\
  _minFrequency (updateRPM (set_minFrequency 500 default_spindle)) = 400.
Proof.
  split; [simpl; lia|]. split; [|reflexivity].
  apply (proj1 updateRPM_repairs_order). simpl. lia.
Defined.

Lemma updateRPM_slop_monotone_witness :
  100 <= _maxFrequency default_spindle <= 4000 /\
  100 <= _maxFrequency (set_maxFrequency 4000 default_spindle) <= 4000 /\
  _slop (updateRPM default_spindle) = 10 /\
  _slop (updateRPM default_spindle)
    <= _slop (updateRPM (set_maxFrequency 4000 default_spindle)).
Proof.
  assert (H1 : 100 <= _maxFrequency default_spindle <= 4000)
    by (simpl; lia).
  assert (H2 : 100 <= _maxFrequency (set_maxFrequency 4000 default_spindle)
                 <= 4000) by (simpl; lia).
  split; [exact H1|]. split; [exact H2|]. split.
  - rewrite (proj1 updateRPM_slop_monotone default_spindle H1). reflexivity.
  - apply (proj2 updateRPM_slop_monotone); [exact H1 | exact H2 | simpl; lia].
Defined.

(** ** Discovery sequence *)

(** C3: step -4 reads register 143 with a response of length 5 and hands out
    the pole-count parser.  On a response whose byte at offset 4 is [b] the
    parser answers success exactly when [2 <= b <= 4], and then
    [_numberPoles] is [b]; for any other [b] it answers failure and leaves
    [_numberPoles], and every field but the log, as it was. *)
Theorem parse_poles_accepts_2_to_4
    (data : ModbusCommand) (response : list byte) (b : byte)
    (s : BD600Spindle) :
  has_room data ->
  response !! 4%nat = Some b ->
  (initialization_sequence (-4) data).2 = Some parse_poles /\
  rx_length (initialization_sequence (-4) data).1 = 5 /\
  payload (initialization_sequence (-4) data).1
    = [x01; x03; Z_to_byte 143; x00; x00] /\
  exists (ok : bool) (s' : BD600Spindle),
    parse_poles response s = Some (ok, s') /\
    (ok = true <-> 2 <= byte_to_Z b <= 4) /\
    (2 <= byte_to_Z b <= 4 -> _numberPoles s' = byte_to_Z b) /\
    (~ (2 <= byte_to_Z b <= 4) ->
     ok = false /\ _numberPoles s' = _numberPoles s /\
     s' = log_event (ErrorPoles (byte_to_Z b)) s).
Proof.
  intros Hroom Hb.
  split; [reflexivity|]. split; [reflexivity|].
  split. { open_command data Hroom. reflexivity. }
  unfold parse_poles, read_u8. rewrite Hb. simpl.
  destruct (Z.leb_spec (byte_to_Z b) 4) as [Hle|Hgt]; simpl.
  - destruct (Z.geb_spec (byte_to_Z b) 2) as [Hge|Hlt].
    + eexists _, _. split; [reflexivity|].
      split; [split; [lia | reflexivity]|].
      split; [|lia].
      intros _. rewrite updateRPM_numberPoles. reflexivity.
    + eexists _, _. split; [reflexivity|].
      split; [split; [discriminate | lia]|].
      split; [lia|]. intros _. repeat split.
  - eexists _, _. split; [reflexivity|].
    split; [split; [discriminate | lia]|].
    split; [lia|]. intros _. repeat split.
Qed.

Lemma parse_poles_accepts_2_to_4_witness :
  has_room blank_command /\
  [x01; x01; x03; Z_to_byte 143; x03] !! 4%nat = Some x03 /\
  (parse_poles [x01; x01; x03; Z_to_byte 143; x03] default_spindle
     ≫= fun r => Some (r.1, _numberPoles r.2)) = Some (true, 3).
Proof.
  assert (Hr : has_room blank_command) by (unfold has_room; simpl; lia).
  split; [exact Hr|]. split; [reflexivity|].
  destruct (parse_poles_accepts_2_to_4 blank_command
              [x01; x01; x03; Z_to_byte 143; x03] x03 default_spindle
              Hr eq_refl)
    as (_ & _ & _ & ok & s' & H1 & H2 & H3 & _).
  assert (Hin : 2 <= byte_to_Z x03 <= 4)
    by (change (byte_to_Z x03) with 3; lia).
  rewrite H1. simpl. rewrite (proj2 H2 Hin), (H3 Hin). reflexivity.
Defined.

(** The values the spec lists: 2, 3 and 4 are accepted, 0, 1, 5 and 255 are
    refused and leave the pole count at the constructor's 4. *)
Lemma parse_poles_examples :
  map (fun b => parse_poles [x00; x00; x00; x00; b] default_spindle
                  ≫= fun r => Some (r.1, _numberPoles r.2))
      [x02; x03; x04; x00; x01; x05; xff]
  = [Some (true, 2); Some (true, 3); Some (true, 4);
     Some (false, 4); Some (false, 4); Some (false, 4); Some (false, 4)].
Proof. reflexivity. Qed.

Lemma discovery_steps_spec (index : Z) :
  index ∈ discovery_steps <-> -6 <= index <= -1.
Proof.
  unfold discovery_steps. rewrite !elem_of_cons, elem_of_nil. lia.
Qed.

(** The six discovery steps each hand out a parser. *)
Lemma initialization_sequence_step (index : Z) (data : ModbusCommand) :
  index ∈ discovery_steps ->
  is_Some (initialization_sequence index data).2.
Proof.
  unfold discovery_steps. intros H.
  repeat (apply elem_of_cons in H as [->|H]; [simpl; eauto|]).
  now apply elem_of_nil in H.
Qed.

(** Any other index falls to the [default] of the [switch]. *)
Lemma initialization_sequence_default (index : Z) (data : ModbusCommand) :
  index ∉ discovery_steps ->
  initialization_sequence index data = (read_setting_prologue data, None).
Proof.
  intros Hout. unfold initialization_sequence.
  destruct index as [|p|p]; try reflexivity.
  destruct p as [[[p|p|]|[p|p|]|]|[[p|p|]|[p|p|]|]|]; try reflexivity;
    exfalso; apply Hout; apply discovery_steps_spec; lia.
Qed.

(** ** The speed table over the life of the driver *)

Lemma published_count_setupSpeeds (dev : Z) (t : SpeedTable) :
  published_count (setupSpeeds dev t) = published_count t.
Proof.
  unfold published_count, setupSpeeds. simpl.
  rewrite List.filter_app, length_app. simpl. lia.
Qed.

Lemma published_count_shelfSpeeds (minRPM maxRPM : Z) (t : SpeedTable) :
  published_count (shelfSpeeds minRPM maxRPM t) = S (published_count t).
Proof.
  unfold published_count, shelfSpeeds. simpl.
  rewrite List.filter_app, length_app. simpl. lia.
Qed.

Lemma word16_is_u16 (hi lo : byte) : is_u16 (word16 hi lo).
Proof. unfold word16, to_u16, is_u16. apply Z.mod_pos_bound. lia. Qed.

Lemma preserved_refl (s : BD600Spindle) : preserved s s.
Proof. split; [intros _; split; reflexivity | tauto]. Qed.

Lemma preserved_trans (s1 s2 s3 : BD600Spindle) :
  preserved s1 s2 -> preserved s2 s3 -> preserved s1 s3.
Proof.
  intros [K12 V12] [K23 V23]. split; [|tauto].
  intros Hne. destruct (K12 Hne) as [E1 C1].
  destruct K23 as [E2 C2]; [congruence|]. split; congruence.
Qed.

(** A step that leaves the speed table and the frequencies alone. *)
Lemma preserved_same (s s' : BD600Spindle) :
  speeds s' = speeds s ->
  _minFrequency s' = _minFrequency s ->
  _maxFrequency s' = _maxFrequency s ->
  preserved s s'.
Proof.
  intros Es Emin Emax. split.
  - intros _. now rewrite Es.
  - unfold valid. now rewrite Emin, Emax.
Qed.

Lemma preserved_updateRPM (s : BD600Spindle) : preserved s (updateRPM s).
Proof.
  split; [|apply updateRPM_valid].
  intros Hne. rewrite updateRPM_speeds_filled by exact Hne.
  split; [reflexivity | apply published_count_setupSpeeds].
Qed.

Lemma preserved_warned (dev_speed : Z) (s : BD600Spindle) :
  preserved s (warned dev_speed s).
Proof.
  unfold warned. destruct (out_of_range dev_speed s).
  - now apply preserved_same.
  - apply preserved_refl.
Qed.

(** Every parser of the driver. *)
Lemma parse_max_frequency_preserved response s ok s' :
  parse_max_frequency response s = Some (ok, s') -> preserved s s'.
Proof.
  unfold parse_max_frequency, read_u16. intros H. simplify_option_eq.
  split; [intros _; split; reflexivity|].
  unfold valid. simpl. intros [Hmin _]. split; [exact Hmin|].
  apply word16_is_u16.
Qed.

Lemma parse_min_frequency_preserved response s ok s' :
  parse_min_frequency response s = Some (ok, s') -> preserved s s'.
Proof.
  unfold parse_min_frequency, read_u16. intros H. simplify_option_eq.
  split; [intros _; split; reflexivity|].
  unfold valid. simpl. intros [_ Hmax]. split; [|exact Hmax].
  apply word16_is_u16.
Qed.

Lemma parse_rated_rpm_preserved response s ok s' :
  parse_rated_rpm response s = Some (ok, s') -> preserved s s'.
Proof.
  unfold parse_rated_rpm, read_u16. intros H. simplify_option_eq.
  eapply preserved_trans; [|apply preserved_updateRPM].
  now apply preserved_same.
Qed.

Lemma parse_poles_preserved response s ok s' :
  parse_poles response s = Some (ok, s') -> preserved s s'.
Proof.
  unfold parse_poles, read_u8. intros H. simplify_option_eq.
  destruct (_ && _) in H; simplify_eq.
  - eapply preserved_trans; [|apply preserved_updateRPM].
    now apply preserved_same.
  - now apply preserved_same.
Qed.

Lemma parse_accel_preserved response s ok s' :
  parse_accel response s = Some (ok, s') -> preserved s s'.
Proof.
  unfold parse_accel, read_u16. intros H. simplify_option_eq.
  now apply preserved_same.
Qed.

Lemma parse_decel_preserved response s ok s' :
  parse_decel response s = Some (ok, s') -> preserved s s'.
Proof.
  unfold parse_decel, read_u16. intros H. simplify_option_eq.
  now apply preserved_same.
Qed.

Lemma parse_current_speed_preserved response s ok s' :
  parse_current_speed response s = Some (ok, s') -> preserved s s'.
Proof.
  unfold parse_current_speed, read_u16. intros H. simplify_option_eq.
  now apply preserved_same.
Qed.

Lemma discover_preserved index response data s data' ok s' :
  discover index response data s = Some (data', ok, s') -> preserved s s'.
Proof.
  unfold discover.
  destruct (decide (index ∈ discovery_steps)) as [Hin|Hout].
  - unfold discovery_steps in Hin.
    repeat (apply elem_of_cons in Hin as [->|Hin]); simpl;
      try (now apply elem_of_nil in Hin);
      intros H;
      match type of H with
      | context [?p response s] =>
          destruct (p response s) as [[ok0 s0]|] eqn:E
      end;
      simpl in H; simplify_eq;
      eauto using parse_max_frequency_preserved, parse_min_frequency_preserved,
        parse_rated_rpm_preserved, parse_poles_preserved,
        parse_accel_preserved, parse_decel_preserved.
  - rewrite (initialization_sequence_default index data Hout). discriminate.
Qed.

Lemma after_preserved (data : ModbusCommand) (e : Event) (s : BD600Spindle) :
  preserved s (after data e s).
Proof.
  destruct e as [index response|response|response|dev_speed|mode|]; simpl.
  - destruct (discover index response data s) as [[[d ok] s']|] eqn:E.
    + eapply discover_preserved, E.
    + apply preserved_refl.
  - destruct (reg s <? 3); now apply preserved_same.
  - destruct (parse_current_speed response s) as [[ok s']|] eqn:E.
    + eapply parse_current_speed_preserved, E.
    + apply preserved_refl.
  - unfold set_speed_command. fold (warned dev_speed s).
    destruct (_ =? _).
    + apply preserved_refl.
    + apply preserved_warned.
  - apply preserved_refl.
  - apply preserved_updateRPM.
Qed.

Lemma run_preserved (data : ModbusCommand) (events : list Event)
    (s : BD600Spindle) :
  preserved s (run data events s).
Proof.
  unfold run. revert s.
  induction events as [|e events IH]; intros s; simpl.
  - apply preserved_refl.
  - eapply preserved_trans; [apply after_preserved | apply IH].
Qed.

(** C8: a calibration that finds the speed table empty publishes the bounds
    [_minFrequency * 60 / 100] and [_maxFrequency * 60 / 100], once; a
    calibration that finds the table filled publishes nothing: it only sets
    the table up for the current [_maxFrequency] and recomputes the slop.
    After the first calibration the table stays filled, so whatever happens
    to the driver afterwards (discovery responses, polls, commands, further
    calibrations) the published bounds stay as they are and nothing is
    published again. *)
Theorem updateRPM_publishes_once
    (data : ModbusCommand) (events : list Event) (s : BD600Spindle) :
  valid s ->
  _speeds (speeds s) = [] ->
  speeds (updateRPM s)
    = setupSpeeds (_maxFrequency (updateRPM s))
        (shelfSpeeds (_minFrequency (updateRPM s) * 60 / 100)
                     (_maxFrequency (updateRPM s) * 60 / 100)
                     (speeds s)) /\
  _speeds (speeds (updateRPM s))
    = [_minFrequency (updateRPM s) * 60 / 100;
       _maxFrequency (updateRPM s) * 60 / 100] /\
  published_count (speeds (updateRPM s)) = S (published_count (speeds s)) /\
  (forall t : BD600Spindle,
     _speeds (speeds t) <> [] ->
     speeds (updateRPM t) = setupSpeeds (_maxFrequency t) (speeds t) /\
     _speeds (speeds (updateRPM t)) = _speeds (speeds t) /\
     published_count (speeds (updateRPM t)) = published_count (speeds t)) /\
  _speeds (speeds (run data events (updateRPM s)))
    = _speeds (speeds (updateRPM s)) /\
  published_count (speeds (run data events (updateRPM s)))
    = S (published_count (speeds s)) /\
  speeds (updateRPM (run data events (updateRPM s)))
    = setupSpeeds (_maxFrequency (run data events (updateRPM s)))
        (speeds (run data events (updateRPM s))) /\
  _slop (updateRPM (run data events (updateRPM s)))
    = Z.max (_maxFrequency (run data events (updateRPM s)) / 40) 1.
Proof.
  intros Hv He.
  pose proof (updateRPM_valid s Hv) as Hv1.
  assert (E1 : speeds (updateRPM s)
    = setupSpeeds (_maxFrequency (updateRPM s))
        (shelfSpeeds (_minFrequency (updateRPM s) * 60 / 100)
                     (_maxFrequency (updateRPM s) * 60 / 100)
                     (speeds s))).
  { rewrite updateRPM_speeds_empty by exact He.
    rewrite updateRPM_minFrequency, updateRPM_maxFrequency.
    destruct Hv as [Hmin Hmax].
    rewrite !rpm_of_u16; [reflexivity | exact Hmax |].
    unfold is_u16 in *. lia. }
  assert (Hfilled : forall t : BD600Spindle,
     _speeds (speeds t) <> [] ->
     speeds (updateRPM t) = setupSpeeds (_maxFrequency t) (speeds t) /\
     _speeds (speeds (updateRPM t)) = _speeds (speeds t) /\
     published_count (speeds (updateRPM t)) = published_count (speeds t)).
  { intros t Ht. rewrite updateRPM_speeds_filled by exact Ht.
    split; [reflexivity|]. split; [reflexivity|].
    apply published_count_setupSpeeds. }
  assert (C1 : published_count (speeds (updateRPM s))
               = S (published_count (speeds s))).
  { rewrite E1, published_count_setupSpeeds.
    apply published_count_shelfSpeeds. }
  destruct (run_preserved data events (updateRPM s)) as [Hk Hv2].
  destruct (Hk (updateRPM_speeds_nonempty s)) as [Hs Hc].
  split; [exact E1|].
  split; [rewrite E1; reflexivity|].
  split; [exact C1|].
  split; [exact Hfilled|].
  split; [exact Hs|].
  split; [congruence|].
  split.
  - apply Hfilled. rewrite Hs. apply updateRPM_speeds_nonempty.
  - rewrite updateRPM_slop.
    destruct (Hv2 Hv1) as [_ Hmax]. unfold is_u16 in Hmax.
    now rewrite Z.quot_div_nonneg by lia.
Qed.

Lemma updateRPM_publishes_once_witness :
  valid default_spindle /\
  _speeds (speeds default_spindle) = [] /\
  _speeds (speeds (updateRPM default_spindle)) = [60; 240] /\
  _speeds (speeds (run blank_command
                     [Discovery (-1) [x01; x01; x03; x05; x9c; x40];
                      Calibration]
                     (updateRPM default_spindle))) = [60; 240] /\
  published_count (speeds (run blank_command
                     [Discovery (-1) [x01; x01; x03; x05; x9c; x40];
                      Calibration]
                     (updateRPM default_spindle))) = 1%nat.
Proof.
  assert (Hv : valid default_spindle)
    by (unfold valid, is_u16; simpl; lia).
  split; [exact Hv|]. split; [reflexivity|].
  destruct (updateRPM_publishes_once blank_command
              [Discovery (-1) [x01; x01; x03; x05; x9c; x40]; Calibration]
              default_spindle Hv eq_refl)
    as (_ & H2 & _ & _ & H5 & H6 & _).
  split; [rewrite H2; reflexivity|].
  split; [rewrite H5, H2; reflexivity | rewrite H6; reflexivity].
Defined.

(** C5: from any driver whose speed table is empty, the constructor's
    defaults included, the discovery steps -1, -2, -3 and -4 answered with
    maximum frequency 40000, minimum frequency 12000, rated RPM 3000 and 2
    poles are all accepted and publish the bounds once, as minRPM 7200 and
    maxRPM 24000. *)
Theorem discovery_publishes_7200_24000
    (data : ModbusCommand) (s : BD600Spindle) (r1 r2 r3 r4 : list byte) :
  _speeds (speeds s) = [] ->
  read_u16 r1 = Some 40000 ->
  read_u16 r2 = Some 12000 ->
  read_u16 r3 = Some 3000 ->
  read_u8 r4 = Some 2 ->
  exists s' : BD600Spindle,
    run_discovery [(-1, r1); (-2, r2); (-3, r3); (-4, r4)] data s
      = Some ([true; true; true; true], s') /\
    _speeds (speeds s') = [7200; 24000] /\
    speed_calls (speeds s')
      = speed_calls (speeds s)
        ++ [ShelfSpeeds 7200 24000; SetupSpeeds 40000; SetupSpeeds 40000] /\
    _minFrequency s' = 12000 /\ _maxFrequency s' = 40000 /\
    _maxRpmAt50Hz s' = 3000 /\ _numberPoles s' = 2.
Proof.
  intros He H1 H2 H3 H4.
  destruct s as [r fmin fmax poles phases rpm50 slop sync [sp dev calls] lg].
  simpl in He. subst sp.
  unfold run_discovery, discover. simpl.
  unfold parse_max_frequency. rewrite H1. simpl.
  unfold parse_min_frequency. rewrite H2. simpl.
  unfold parse_rated_rpm. rewrite H3. simpl.
  unfold parse_poles. rewrite H4. simpl.
  eexists. split; [reflexivity|]. simpl.
  repeat split. rewrite <- !app_assoc. reflexivity.
Qed.

Lemma discovery_publishes_7200_24000_witness :
  _speeds (speeds default_spindle) = [] /\
  _minFrequency default_spindle = 100 /\
  _maxFrequency default_spindle = 400 /\
  _numberPoles default_spindle = 4 /\
  (run_discovery
     [(-1, [x01; x01; x03; x05; x9c; x40]);
      (-2, [x01; x01; x03; x0b; x2e; xe0]);
      (-3, [x01; x01; x03; x90; x0b; xb8]);
      (-4, [x01; x01; x03; x8f; x02])]
     blank_command default_spindle
     ≫= fun r => Some (r.1, _speeds (speeds r.2), speed_calls (speeds r.2)))
  = Some ([true; true; true; true], [7200; 24000],
          [ShelfSpeeds 7200 24000; SetupSpeeds 40000; SetupSpeeds 40000]).
Proof.
  split; [reflexivity|]. split; [reflexivity|].
  split; [reflexivity|]. split; [reflexivity|].
  destruct (discovery_publishes_7200_24000 blank_command default_spindle
              [x01; x01; x03; x05; x9c; x40]
              [x01; x01; x03; x0b; x2e; xe0]
              [x01; x01; x03; x90; x0b; xb8]
              [x01; x01; x03; x8f; x02]
              eq_refl eq_refl eq_refl eq_refl eq_refl)
    as (s' & Hrun & Hs & Hc & _).
  rewrite Hrun. simpl. rewrite Hs, Hc. reflexivity.
Defined.

(** ** Status polling *)

Lemma get_status_ok_result (data : ModbusCommand) (s : BD600Spindle) :
  0 <= reg s <= 3 ->
  get_status_ok data s
  = (set_msg 5 0x00
       (set_msg 4 0x00
          (set_msg 3 (reg s)
             (set_msg 2 0x03
                (set_msg 1 0x04
                   (set_rx_length 6 (set_tx_length 6 data)))))),
     set_reg ((reg s + 1) mod 4) s,
     parse_status).
Proof.
  intros Hr. unfold get_status_ok.
  destruct (Z.ltb_spec (reg s) 3) as [Hlt|Hge].
  - now rewrite Z.mod_small by lia.
  - replace (reg s) with 3 by lia. reflexivity.
Qed.

Lemma status_registers_cycle (n : nat) (data : ModbusCommand)
    (s : BD600Spindle) :
  0 <= reg s <= 3 ->
  has_room data ->
  status_registers n data s
  = map (fun k => Some (Z_to_byte ((reg s + Z.of_nat k) mod 4))) (seq 0 n).
Proof.
  revert data s. induction n as [|n IH]; intros data s Hr Hroom.
  - reflexivity.
  - cbn [status_registers]. rewrite get_status_ok_result by exact Hr.
    cbn [seq map]. f_equal.
    + open_command data Hroom. simpl.
      now rewrite Z.add_0_r, Z.mod_small by lia.
    + rewrite IH.
      * rewrite <- seq_shift, map_map. apply map_ext. intros k. simpl reg.
        rewrite Z.add_mod_idemp_l by lia. do 3 f_equal. lia.
      * simpl. pose proof (Z.mod_pos_bound (reg s + 1) 4). lia.
      * unfold has_room in *. simpl. now rewrite !length_insert.
Qed.

(** A cursor that is 3 or more goes back to 0. *)
Lemma get_status_ok_resets (data : ModbusCommand) (s : BD600Spindle) :
  3 <= reg s -> reg (get_status_ok data s).1.2 = 0.
Proof.
  intros H. unfold get_status_ok.
  destruct (Z.ltb_spec (reg s) 3); [lia | reflexivity].
Qed.

(** X17: with the cursor [reg] at one of 0, 1, 2, 3, a call of
    [get_status_ok] builds the read frame [04 03 reg 00 00] with both
    lengths 6 and moves the cursor to the next register, from 3 back to 0;
    successive calls therefore read the registers in the order
    [reg, reg + 1, ...] modulo 4, one per call; and the parser it returns
    answers success on every response, leaving the driver as it is. *)
Theorem get_status_ok_cycles (data : ModbusCommand) (s : BD600Spindle) :
  0 <= reg s <= 3 ->
  has_room data ->
  exists data' : ModbusCommand,
    get_status_ok data s
      = (data', set_reg ((reg s + 1) mod 4) s, parse_status) /\
    tx_length data' = 6 /\ rx_length data' = 6 /\
    payload data' = [x04; x03; Z_to_byte (reg s); x00; x00] /\
    byte_to_Z (Z_to_byte (reg s)) = reg s /\
    (forall (response : list byte) (st : BD600Spindle),
       parse_status response st = Some (true, st)) /\
    (forall n : nat,
       status_registers n data s
       = map (fun k => Some (Z_to_byte ((reg s + Z.of_nat k) mod 4)))
           (seq 0 n)).
Proof.
  intros Hr Hroom. eexists.
  split; [apply get_status_ok_result, Hr|].
  split; [reflexivity|]. split; [reflexivity|].
  split. { open_command data Hroom. reflexivity. }
  split. { rewrite byte_to_Z_to_byte. unfold to_u8. apply Z.mod_small. lia. }
  split; [reflexivity|].
  intros n. now apply status_registers_cycle.
Qed.

Lemma get_status_ok_cycles_witness :
  0 <= reg (set_reg 3 default_spindle) <= 3 /\
  has_room blank_command /\
  payload (get_status_ok blank_command (set_reg 3 default_spindle)).1.1
    = [x04; x03; x03; x00; x00] /\
  reg (get_status_ok blank_command (set_reg 3 default_spindle)).1.2 = 0 /\
  status_registers 6 blank_command (set_reg 3 default_spindle)
    = [Some x03; Some x00; Some x01; Some x02; Some x03; Some x00].
Proof.
  assert (H1 : 0 <= reg (set_reg 3 default_spindle) <= 3) by (simpl; lia).
  assert (H2 : has_room blank_command) by (unfold has_room; simpl; lia).
  split; [exact H1|]. split; [exact H2|].
  destruct (get_status_ok_cycles blank_command (set_reg 3 default_spindle)
              H1 H2) as (data' & E & _ & _ & Hp & _ & _ & Hn).
  rewrite E. cbn [fst snd].
  split; [rewrite Hp; reflexivity|].
  split; [reflexivity|]. rewrite Hn. reflexivity.
Defined.

(** * Further properties *)

(** ** The bytes of the commands *)

Lemma untouched_refl (data : ModbusCommand) : untouched data data.
Proof. repeat split. Qed.

Lemma untouched_set_msg (i : nat) (v : Z) (data d : ModbusCommand) :
  (1 <= i <= 5)%nat -> untouched data d -> untouched data (set_msg i v d).
Proof.
  intros Hi (Hl & H0 & Hd). unfold untouched. simpl.
  rewrite length_insert, list_lookup_insert_ne by lia.
  rewrite drop_insert_lt by lia. auto.
Qed.

Lemma untouched_set_tx_length (n : Z) (data d : ModbusCommand) :
  untouched data d -> untouched data (set_tx_length n d).
Proof. intros H. exact H. Qed.

Lemma untouched_set_rx_length (n : Z) (data d : ModbusCommand) :
  untouched data d -> untouched data (set_rx_length n d).
Proof. intros H. exact H. Qed.

Lemma untouched_prologue (data : ModbusCommand) :
  untouched data (read_setting_prologue data).
Proof.
  unfold read_setting_prologue.
  repeat (apply untouched_set_msg; [lia|]).
  apply untouched_set_rx_length, untouched_set_tx_length, untouched_refl.
Qed.

(** Assignments to the lengths and to bytes 1 to 5, one after the other. *)
Create HintDb untouched.
#[local] Hint Resolve untouched_refl untouched_set_tx_length
  untouched_set_rx_length untouched_prologue : untouched.
#[local] Hint Extern 1 (untouched _ (set_msg _ _ _)) =>
  apply untouched_set_msg; [lia|] : untouched.

(** X1: [direction_command] builds a write of register 0x1000: both lengths
    are 6 and the bytes after the address are [06 10 00 00 code], the code
    being 1 for clockwise, 2 for counter-clockwise and 5 for disable; the
    address byte and the bytes behind the command stay as they were. *)
Theorem direction_command_frame
    (mode : SpindleState) (data : ModbusCommand) :
  has_room data ->
  tx_length (direction_command mode data) = 6 /\
  rx_length (direction_command mode data) = 6 /\
  payload (direction_command mode data)
    = [x06; x10; x00; x00;
       match mode with Cw => x01 | Ccw => x02 | Disable => x05 end] /\
  frame_value (direction_command mode data)
    = Some (match mode with Cw => 1 | Ccw => 2 | Disable => 5 end) /\
  untouched data (direction_command mode data).
Proof.
  intros Hroom.
  split; [destruct mode; reflexivity|].
  split; [destruct mode; reflexivity|].
  split. { open_command data Hroom. destruct mode; reflexivity. }
  split. { open_command data Hroom. destruct mode; reflexivity. }
  unfold direction_command. destruct mode; auto 12 with untouched.
Qed.

Lemma direction_command_frame_witness :
  has_room blank_command /\
  payload (direction_command Ccw blank_command)
    = [x06; x10; x00; x00; x02] /\
  msg (direction_command Ccw blank_command)
    = [x00; x06; x10; x00; x00; x02] ++ replicate 10 x00.
Proof.
  assert (Hr : has_room blank_command) by (unfold has_room; simpl; lia).
  split; [exact Hr|].
  destruct (direction_command_frame Ccw blank_command Hr)
    as (_ & _ & Hp & _ & _).
  split; [exact Hp | reflexivity].
Defined.

(** X2: no command builder writes the address byte [msg[0]] or any byte from
    offset 6 on, and none changes the length of the array: this holds for
    [direction_command], [set_speed_command], [initialization_sequence] at
    every index, [get_status_ok] and [get_current_speed], whatever the size
    of the array. *)
Theorem builders_leave_address_and_tail (data : ModbusCommand) :
  (forall mode : SpindleState, untouched data (direction_command mode data)) /\
  (forall (dev_speed : Z) (s s' : BD600Spindle) (data' : ModbusCommand),
     set_speed_command dev_speed data s = Some (data', s') ->
     untouched data data') /\
  (forall index : Z, untouched data (initialization_sequence index data).1) /\
  (forall s : BD600Spindle, untouched data (get_status_ok data s).1.1) /\
  untouched data (get_current_speed data).1.
Proof.
  split; [|split; [|split; [|split]]].
  - intros mode. unfold direction_command.
    destruct mode; auto 12 with untouched.
  - intros dev_speed s s' data' H. unfold set_speed_command in H.
    destruct (_ =? _) in H; [discriminate|].
    injection H as <- _. auto 12 with untouched.
  - intros index.
    destruct (decide (index ∈ discovery_steps)) as [Hin|Hout].
    + unfold discovery_steps in Hin.
      repeat (apply elem_of_cons in Hin as [->|Hin]);
        try (now apply elem_of_nil in Hin);
        simpl; auto 12 with untouched.
    + rewrite (initialization_sequence_default index data Hout).
      apply untouched_prologue.
  - intros s. unfold get_status_ok. simpl. auto 12 with untouched.
  - unfold get_current_speed. simpl. auto 12 with untouched.
Qed.

(** X3: the six discovery steps -1, ..., -6 read the registers 5, 11, 144,
    143, 14 and 15 in this order: each builds [01 03 register 00 00] with
    transmit length 6 and response length 6, except step -4 whose response
    length is 5; each returns its own parser, and a parser is returned for
    these six indices only. *)
Theorem discovery_step_frames (data : ModbusCommand) :
  has_room data ->
  map (fun index =>
         (tx_length (initialization_sequence index data).1,
          rx_length (initialization_sequence index data).1,
          payload (initialization_sequence index data).1))
      discovery_steps
  = [(6, 6, [x01; x03; Z_to_byte 5; x00; x00]);
     (6, 6, [x01; x03; Z_to_byte 11; x00; x00]);
     (6, 6, [x01; x03; Z_to_byte 144; x00; x00]);
     (6, 5, [x01; x03; Z_to_byte 143; x00; x00]);
     (6, 6, [x01; x03; Z_to_byte 14; x00; x00]);
     (6, 6, [x01; x03; Z_to_byte 15; x00; x00])] /\
  map (fun index => (initialization_sequence index data).2) discovery_steps
  = [Some parse_max_frequency; Some parse_min_frequency;
     Some parse_rated_rpm; Some parse_poles;
     Some parse_accel; Some parse_decel] /\
  (forall index : Z,
     is_Some (initialization_sequence index data).2
     <-> index ∈ discovery_steps).
Proof.
  intros Hroom. split; [|split].
  - open_command data Hroom. reflexivity.
  - reflexivity.
  - intros index. split.
    + intros Hs. destruct (decide (index ∈ discovery_steps)) as [Hin|Hout];
        [exact Hin|].
      rewrite (initialization_sequence_default index data Hout) in Hs.
      simpl in Hs. now apply is_Some_None in Hs.
    + apply initialization_sequence_step.
Qed.

Lemma discovery_step_frames_witness :
  has_room blank_command /\
  payload (initialization_sequence (-3) blank_command).1
    = [x01; x03; x90; x00; x00] /\
  (is_Some (initialization_sequence (-7) blank_command).2
   <-> -7 ∈ discovery_steps).
Proof.
  assert (Hr : has_room blank_command) by (unfold has_room; simpl; lia).
  split; [exact Hr|].
  destruct (discovery_step_frames blank_command Hr) as (_ & _ & H).
  split; [reflexivity | apply H].
Defined.

(** ** Speed commands *)

(** The value in the frame of a speed command. *)
Lemma set_speed_command_value
    (dev_speed : Z) (data : ModbusCommand) (s : BD600Spindle) :
  _maxFrequency s <> 0 ->
  has_room data ->
  exists data' : ModbusCommand,
    set_speed_command dev_speed data s = Some (data', warned dev_speed s) /\
    frame_value data'
      = Some ((dev_speed / _maxFrequency s * 10000) mod 2 ^ 16) /\
    read_u16 (msg data') = frame_value data'.
Proof.
  intros Hmax Hroom. eexists. split.
  - unfold set_speed_command. fold (warned dev_speed s).
    rewrite warned_maxFrequency.
    destruct (Z.eqb_spec (_maxFrequency s) 0) as [E|_]; [contradiction|].
    reflexivity.
  - open_command data Hroom. unfold frame_value, read_u16. simpl.
    rewrite word16_value, !byte_to_Z_to_byte, split_u16.
    rewrite speed_percentage_u16. split; reflexivity.
Qed.

(** X4: for a target frequency within the range, the integer division that
    comes first leaves only two values: the frame of [set_speed_command]
    carries 0 for every [dev_speed] below [_maxFrequency] and 10000 for
    [dev_speed = _maxFrequency]. *)
Theorem set_speed_command_in_range
    (dev_speed : Z) (data : ModbusCommand) (s : BD600Spindle) :
  0 < _maxFrequency s ->
  0 <= dev_speed <= _maxFrequency s ->
  has_room data ->
  (set_speed_command dev_speed data s ≫= fun r => frame_value r.1)
  = Some (if dev_speed =? _maxFrequency s then 10000 else 0).
Proof.
  intros Hmax Hr Hroom.
  destruct (set_speed_command_value dev_speed data s) as (data' & E & Hv & _);
    [lia | exact Hroom |].
  rewrite E. simpl. rewrite Hv. f_equal.
  destruct (Z.eqb_spec dev_speed (_maxFrequency s)) as [->|Hne].
  - rewrite Z.div_same by lia. reflexivity.
  - rewrite Z.div_small by lia. reflexivity.
Qed.

Lemma set_speed_command_in_range_witness :
  0 < _maxFrequency default_spindle /\
  0 <= 399 <= _maxFrequency default_spindle /\
  has_room blank_command /\
  (set_speed_command 399 blank_command default_spindle
     ≫= fun r => frame_value r.1) = Some 0.
Proof.
  assert (H1 : 0 < _maxFrequency default_spindle) by (simpl; lia).
  assert (H2 : 0 <= 399 <= _maxFrequency default_spindle) by (simpl; lia).
  assert (H3 : has_room blank_command) by (unfold has_room; simpl; lia).
  split; [exact H1|]. split; [exact H2|]. split; [exact H3|].
  rewrite (set_speed_command_in_range 399 blank_command default_spindle
             H1 H2 H3).
  reflexivity.
Defined.

(** X5: the maximum frequency of step -1 is stored without a check, zero
    included, and a calibration keeps it; [set_speed_command] divides by it
    without a check, so with a zero maximum frequency no speed command has a
    result, whatever the target. *)
Theorem zero_max_frequency_has_no_speed_command
    (b0 b1 b2 b3 : byte) (rest : list byte)
    (s : BD600Spindle) (dev_speed : Z) (data : ModbusCommand) :
  exists s1 : BD600Spindle,
    parse_max_frequency (b0 :: b1 :: b2 :: b3 :: x00 :: x00 :: rest) s
      = Some (true, s1) /\
    _maxFrequency s1 = 0 /\
    _maxFrequency (updateRPM s1) = 0 /\
    set_speed_command dev_speed data s1 = None /\
    set_speed_command dev_speed data (updateRPM s1) = None.
Proof.
  eexists. split; [reflexivity|].
  split; [reflexivity|].
  assert (Hz : forall t : BD600Spindle,
            _maxFrequency t = 0 -> set_speed_command dev_speed data t = None).
  { intros t Ht. unfold set_speed_command. fold (warned dev_speed t).
    now rewrite warned_maxFrequency, Ht. }
  split; [now rewrite updateRPM_maxFrequency|].
  split; apply Hz; [|rewrite updateRPM_maxFrequency]; reflexivity.
Qed.

(** X10: the two bytes [set_speed_command] writes and the 16-bit read of the
    parsers are inverse to each other: reading offsets 4 and 5 of the frame
    gives back the low 16 bits of the percentage, which is what
    [parse_current_speed] would store from such a response. *)
Theorem speed_frame_round_trip
    (dev_speed : Z) (data data' : ModbusCommand) (s s' st : BD600Spindle) :
  has_room data ->
  set_speed_command dev_speed data s = Some (data', s') ->
  read_u16 (msg data')
    = Some (to_u16 (speed_percentage dev_speed (_maxFrequency s))) /\
  frame_value data' = read_u16 (msg data') /\
  parse_current_speed (msg data') st
    = Some (true,
            set_sync_dev_speed
              (to_u16 (speed_percentage dev_speed (_maxFrequency s))) st).
Proof.
  intros Hroom H.
  assert (Hmax : _maxFrequency s <> 0).
  { intros E. unfold set_speed_command in H. fold (warned dev_speed s) in H.
    rewrite warned_maxFrequency, E in H. discriminate. }
  destruct (set_speed_command_value dev_speed data s Hmax Hroom)
    as (d & E & Hv & Hr).
  rewrite E in H. injection H as <- _.
  rewrite speed_percentage_u16.
  assert (R : read_u16 (msg d)
              = Some ((dev_speed / _maxFrequency s * 10000) mod 2 ^ 16))
    by congruence.
  split; [exact R|]. split; [congruence|].
  unfold parse_current_speed. rewrite R. reflexivity.
Qed.

Lemma speed_frame_round_trip_witness :
  has_room blank_command /\
  (set_speed_command 2800 blank_command default_spindle
     ≫= fun r => read_u16 (msg r.1)) = Some 4464.
Proof.
  assert (Hr : has_room blank_command) by (unfold has_room; simpl; lia).
  split; [exact Hr|].
  destruct (set_speed_command 2800 blank_command default_spindle)
    as [[d s']|] eqn:E; [|discriminate E].
  destruct (speed_frame_round_trip 2800 blank_command d default_spindle s'
              default_spindle Hr E) as (R & _).
  simpl. rewrite R. reflexivity.
Defined.

(** ** Responses *)

Lemma read_u16_value (response : list byte) (hi lo : byte) :
  response !! 4%nat = Some hi ->
  response !! 5%nat = Some lo ->
  read_u16 response = Some (byte_to_Z hi * 256 + byte_to_Z lo).
Proof.
  intros H4 H5. unfold read_u16. rewrite H4, H5. simpl.
  now rewrite word16_value.
Qed.

Lemma read_u16_is_u16 (response : list byte) (v : Z) :
  read_u16 response = Some v -> is_u16 v.
Proof.
  unfold read_u16. intros H. simplify_option_eq. apply word16_is_u16.
Qed.

(** X9: [get_current_speed] builds the read of status register 1,
    [04 03 01 00 00] with both lengths 6; its parser accepts every response
    and stores the big-endian value of bytes 4 and 5, a number from 0 to
    65535, into [_sync_dev_speed], changing nothing else. *)
Theorem get_current_speed_stores_frequency
    (data : ModbusCommand) (response : list byte) (hi lo : byte)
    (s : BD600Spindle) :
  has_room data ->
  response !! 4%nat = Some hi ->
  response !! 5%nat = Some lo ->
  tx_length (get_current_speed data).1 = 6 /\
  rx_length (get_current_speed data).1 = 6 /\
  payload (get_current_speed data).1 = [x04; x03; x01; x00; x00] /\
  (get_current_speed data).2 response s
    = Some (true,
            set_sync_dev_speed (byte_to_Z hi * 256 + byte_to_Z lo) s) /\
  0 <= byte_to_Z hi * 256 + byte_to_Z lo <= 65535.
Proof.
  intros Hroom H4 H5.
  split; [reflexivity|]. split; [reflexivity|].
  split. { open_command data Hroom. reflexivity. }
  split.
  - simpl. unfold parse_current_speed.
    rewrite (read_u16_value response hi lo H4 H5). reflexivity.
  - pose proof (byte_to_Z_range hi). pose proof (byte_to_Z_range lo). lia.
Qed.

Lemma get_current_speed_stores_frequency_witness :
  has_room blank_command /\
  [x01; x04; x03; x01; x09; xc4] !! 4%nat = Some x09 /\
  [x01; x04; x03; x01; x09; xc4] !! 5%nat = Some xc4 /\
  ((get_current_speed blank_command).2 [x01; x04; x03; x01; x09; xc4]
     default_spindle ≫= fun r => Some (r.1, _sync_dev_speed r.2))
  = Some (true, 2500).
Proof.
  assert (Hr : has_room blank_command) by (unfold has_room; simpl; lia).
  split; [exact Hr|]. split; [reflexivity|]. split; [reflexivity|].
  destruct (get_current_speed_stores_frequency blank_command
              [x01; x04; x03; x01; x09; xc4] x09 xc4 default_spindle
              Hr eq_refl eq_refl) as (_ & _ & _ & H & _).
  rewrite H. reflexivity.
Defined.

(** X8: a parser looks at no byte of the response but those at offsets 4
    and 5: the parsers of a 16-bit value give the same result on two
    responses that agree there, the pole parser on two responses that agree
    at offset 4, and the status parser on any two responses. *)
Theorem parsers_read_offsets_4_and_5
    (r r' : list byte) (s : BD600Spindle) :
  r !! 4%nat = r' !! 4%nat ->
  (r !! 5%nat = r' !! 5%nat ->
   forall p : response_parser, p ∈ word_parsers -> p r s = p r' s) /\
  parse_poles r s = parse_poles r' s /\
  parse_status r s = parse_status r' s.
Proof.
  intros H4. split; [|split].
  - intros H5 p Hp.
    assert (R : read_u16 r = read_u16 r')
      by (unfold read_u16; now rewrite H4, H5).
    unfold word_parsers in Hp.
    repeat (apply elem_of_cons in Hp as [->|Hp]);
      try (now apply elem_of_nil in Hp);
      unfold parse_max_frequency, parse_min_frequency, parse_rated_rpm,
        parse_accel, parse_decel, parse_current_speed;
      now rewrite R.
  - unfold parse_poles, read_u8. now rewrite H4.
  - reflexivity.
Qed.

Lemma parsers_read_offsets_4_and_5_witness :
  [x01; x01; x03; x05; x9c; x40] !! 4%nat
    = [xff; xff; xff; xff; x9c; x40; xff] !! 4%nat /\
  parse_max_frequency [x01; x01; x03; x05; x9c; x40] default_spindle
    = parse_max_frequency [xff; xff; xff; xff; x9c; x40; xff] default_spindle.
Proof.
  split; [reflexivity|].
  apply (parsers_read_offsets_4_and_5
           [x01; x01; x03; x05; x9c; x40] [xff; xff; xff; xff; x9c; x40; xff]
           default_spindle eq_refl); [reflexivity|].
  unfold word_parsers. apply elem_of_cons. now left.
Defined.

(** X6: the parsers of steps -1 and -2 accept every 16-bit value and store
    it without a calibration: the slop, the speed table and the other
    parameters stay as they were, and the order of the two frequencies is not
    restored.  A maximum below the minimum, or a minimum above the maximum,
    leaves [_minFrequency > _maxFrequency] until the next calibration. *)
Theorem frequency_steps_do_not_calibrate
    (response : list byte) (v : Z) (s : BD600Spindle) :
  read_u16 response = Some v ->
  exists s1 s2 : BD600Spindle,
    parse_max_frequency response s = Some (true, s1) /\
    parse_min_frequency response s = Some (true, s2) /\
    0 <= v <= 65535 /\
    s1 = set_maxFrequency v s /\
    _minFrequency s2 = v /\ _maxFrequency s2 = _maxFrequency s /\
    _slop s2 = _slop s /\ speeds s2 = speeds s /\
    _numberPoles s2 = _numberPoles s /\
    _maxRpmAt50Hz s2 = _maxRpmAt50Hz s /\
    (v < _minFrequency s -> _minFrequency s1 > _maxFrequency s1) /\
    (_maxFrequency s < v -> _minFrequency s2 > _maxFrequency s2).
Proof.
  intros H. pose proof (read_u16_is_u16 response v H) as Hu.
  unfold is_u16 in Hu.
  eexists _, _. unfold parse_max_frequency, parse_min_frequency.
  rewrite H. simpl.
  split; [reflexivity|]. split; [reflexivity|].
  split; [lia|]. repeat split; simpl; lia.
Qed.

Lemma frequency_steps_do_not_calibrate_witness :
  read_u16 [x01; x01; x03; x0b; x2e; xe0] = Some 12000 /\
  (parse_min_frequency [x01; x01; x03; x0b; x2e; xe0] default_spindle
     ≫= fun r => Some (_minFrequency r.2, _maxFrequency r.2, _slop r.2))
  = Some (12000, 400, 0).
Proof.
  split; [reflexivity|].
  destruct (frequency_steps_do_not_calibrate
              [x01; x01; x03; x0b; x2e; xe0] 12000 default_spindle eq_refl)
    as (s1 & s2 & _ & E & _ & _ & Hmin & Hmax & Hslop & _).
  rewrite E. simpl. now rewrite Hmin, Hmax, Hslop.
Defined.

Lemma parse_rated_rpm_Some (r : list byte) (s s' : BD600Spindle) (ok : bool) :
  parse_rated_rpm r s = Some (ok, s') ->
  exists v : Z,
    read_u16 r = Some v /\ ok = true /\
    s' = updateRPM (log_event (InfoRatedRpm v) (set_maxRpmAt50Hz v s)).
Proof.
  unfold parse_rated_rpm. destruct (read_u16 r) as [v|]; [|discriminate].
  intros H. injection H as <- <-. eauto.
Qed.

Lemma parse_poles_accepted (r : list byte) (s s' : BD600Spindle) :
  parse_poles r s = Some (true, s') ->
  exists v : Z,
    read_u8 r = Some v /\ 2 <= v <= 4 /\
    s' = updateRPM (log_event (InfoPoles v) (set_numberPoles v s)).
Proof.
  unfold parse_poles. destruct (read_u8 r) as [v|]; [|discriminate].
  cbn [mbind option_bind].
  destruct (Z.leb_spec v 4) as [Hle|Hgt], (Z.geb_spec v 2) as [Hge|Hlt];
    cbn [andb]; intros E; try discriminate E.
  injection E as <-. exists v. repeat split; lia.
Qed.

(** X7: the rated RPM of step -3 and the pole count of step -4 are stored
    and never used: a calibration computes the frequencies, the slop and
    the speed table from the two frequencies and the table alone, so
    whatever value an accepted response of step -3 or -4 carries, what is
    published and the slop are the same. *)
Theorem calibration_ignores_rated_rpm_and_poles :
  (forall s t : BD600Spindle,
     _minFrequency s = _minFrequency t ->
     _maxFrequency s = _maxFrequency t ->
     speeds s = speeds t ->
     _minFrequency (updateRPM s) = _minFrequency (updateRPM t) /\
     _maxFrequency (updateRPM s) = _maxFrequency (updateRPM t) /\
     _slop (updateRPM s) = _slop (updateRPM t) /\
     speeds (updateRPM s) = speeds (updateRPM t)) /\
  (forall (r r' : list byte) (s s1 s2 : BD600Spindle),
     parse_rated_rpm r s = Some (true, s1) ->
     parse_rated_rpm r' s = Some (true, s2) ->
     _minFrequency s1 = _minFrequency s2 /\
     _maxFrequency s1 = _maxFrequency s2 /\
     _slop s1 = _slop s2 /\ speeds s1 = speeds s2) /\
  (forall (r r' : list byte) (s s1 s2 : BD600Spindle),
     parse_poles r s = Some (true, s1) ->
     parse_poles r' s = Some (true, s2) ->
     _minFrequency s1 = _minFrequency s2 /\
     _maxFrequency s1 = _maxFrequency s2 /\
     _slop s1 = _slop s2 /\ speeds s1 = speeds s2).
Proof.
  assert (U : forall s t : BD600Spindle,
     _minFrequency s = _minFrequency t ->
     _maxFrequency s = _maxFrequency t ->
     speeds s = speeds t ->
     _minFrequency (updateRPM s) = _minFrequency (updateRPM t) /\
     _maxFrequency (updateRPM s) = _maxFrequency (updateRPM t) /\
     _slop (updateRPM s) = _slop (updateRPM t) /\
     speeds (updateRPM s) = speeds (updateRPM t)).
  { intros s t Hmin Hmax Hs.
    rewrite !updateRPM_minFrequency, !updateRPM_maxFrequency, !updateRPM_slop.
    rewrite Hmin, Hmax. repeat split.
    destruct (_speeds (speeds t)) as [|x l] eqn:E.
    - rewrite !updateRPM_speeds_empty by congruence. congruence.
    - rewrite !updateRPM_speeds_filled by congruence. congruence. }
  split; [exact U|]. split.
  - intros r r' s s1 s2 H1 H2.
    apply parse_rated_rpm_Some in H1 as (v1 & _ & _ & ->).
    apply parse_rated_rpm_Some in H2 as (v2 & _ & _ & ->).
    now apply U.
  - intros r r' s s1 s2 H1 H2.
    apply parse_poles_accepted in H1 as (v1 & _ & _ & ->).
    apply parse_poles_accepted in H2 as (v2 & _ & _ & ->).
    now apply U.
Qed.

Lemma calibration_ignores_rated_rpm_and_poles_witness :
  parse_poles [x01; x01; x03; x8f; x02] default_spindle
    ≫= (fun r => Some (_slop r.2, speeds r.2))
  = parse_poles [x01; x01; x03; x8f; x04] default_spindle
    ≫= (fun r => Some (_slop r.2, speeds r.2)).
Proof.
  destruct (parse_poles [x01; x01; x03; x8f; x02] default_spindle)
    as [[[] s1]|] eqn:E1; try discriminate E1.
  destruct (parse_poles [x01; x01; x03; x8f; x04] default_spindle)
    as [[[] s2]|] eqn:E2; try discriminate E2.
  destruct (proj2 (proj2 calibration_ignores_rated_rpm_and_poles)
              _ _ _ _ _ E1 E2) as (_ & _ & Hs & Ht).
  simpl. now rewrite Hs, Ht.
Defined.

(** ** Calibration, again *)

(** X11: a calibration right after a calibration changes nothing the first
    one computed: the two frequencies, the slop, the entries of the speed
    table and the number of publications are the same, and so is every other
    parameter. *)
Theorem updateRPM_idempotent (s : BD600Spindle) :
  _minFrequency (updateRPM (updateRPM s)) = _minFrequency (updateRPM s) /\
  _maxFrequency (updateRPM (updateRPM s)) = _maxFrequency (updateRPM s) /\
  _slop (updateRPM (updateRPM s)) = _slop (updateRPM s) /\
  _speeds (speeds (updateRPM (updateRPM s)))
    = _speeds (speeds (updateRPM s)) /\
  published_count (speeds (updateRPM (updateRPM s)))
    = published_count (speeds (updateRPM s)) /\
  max_dev_speed (speeds (updateRPM (updateRPM s)))
    = max_dev_speed (speeds (updateRPM s)) /\
  _numberPoles (updateRPM (updateRPM s)) = _numberPoles (updateRPM s) /\
  log (updateRPM (updateRPM s)) = log (updateRPM s).
Proof.
  pose proof (updateRPM_speeds_nonempty s) as Hne.
  pose proof (updateRPM_speeds_filled (updateRPM s) Hne) as E2.
  rewrite updateRPM_maxFrequency in E2.
  assert (Hdev : max_dev_speed (speeds (updateRPM s))
                 = Some (_maxFrequency s)).
  { destruct (_speeds (speeds s)) as [|x l] eqn:E.
    - rewrite updateRPM_speeds_empty by exact E. reflexivity.
    - rewrite updateRPM_speeds_filled by congruence. reflexivity. }
  split. { rewrite !updateRPM_minFrequency, updateRPM_maxFrequency. lia. }
  split. { now rewrite !updateRPM_maxFrequency. }
  split. { now rewrite !updateRPM_slop, updateRPM_maxFrequency. }
  split. { now rewrite E2. }
  split. { rewrite E2. apply published_count_setupSpeeds. }
  split. { now rewrite E2, Hdev. }
  split. { now rewrite !updateRPM_numberPoles. }
  now rewrite !updateRPM_log.
Qed.

(** X12: the slop a calibration computes is never below 1; it is 1 for
    every maximum frequency under 80 centiHz, zero included, and with a
    16-bit maximum frequency it is at most 1638. *)
Theorem updateRPM_slop_bounds (s : BD600Spindle) :
  1 <= _slop (updateRPM s) /\
  (0 <= _maxFrequency s < 80 -> _slop (updateRPM s) = 1) /\
  (is_u16 (_maxFrequency s) -> _slop (updateRPM s) <= 1638).
Proof.
  rewrite updateRPM_slop. split; [lia|]. split.
  - intros H. rewrite Z.quot_div_nonneg by lia.
    assert (_maxFrequency s / 40 <= 1).
    { apply Z.lt_succ_r. apply Z.div_lt_upper_bound; lia. }
    lia.
  - unfold is_u16. intros H. rewrite Z.quot_div_nonneg by lia.
    assert (_maxFrequency s / 40 < 1639)
      by (apply Z.div_lt_upper_bound; lia).
    lia.
Qed.

Lemma updateRPM_slop_bounds_witness :
  0 <= _maxFrequency (set_maxFrequency 79 default_spindle) < 80 /\
  _slop (updateRPM (set_maxFrequency 79 default_spindle)) = 1.
Proof.
  assert (H : 0 <= _maxFrequency (set_maxFrequency 79 default_spindle) < 80)
    by (simpl; lia).
  split; [exact H|].
  apply (proj1 (proj2 (updateRPM_slop_bounds
                         (set_maxFrequency 79 default_spindle))) H).
Defined.

(** X13: the bounds a calibration publishes on an empty speed table are in
    order, whatever the order of the two frequencies was: with 16-bit
    frequencies, 0 <= minRPM <= maxRPM <= 39321, and maxRPM is
    [_maxFrequency * 60 / 100]. *)
Theorem published_bounds_in_order (s : BD600Spindle) :
  valid s ->
  _speeds (speeds s) = [] ->
  exists minRPM maxRPM : Z,
    _speeds (speeds (updateRPM s)) = [minRPM; maxRPM] /\
    speed_calls (speeds (updateRPM s))
      = speed_calls (speeds s)
        ++ [ShelfSpeeds minRPM maxRPM; SetupSpeeds (_maxFrequency s)] /\
    maxRPM = _maxFrequency s * 60 / 100 /\
    0 <= minRPM <= maxRPM /\ maxRPM <= 39321.
Proof.
  intros [Hmin Hmax] He.
  rewrite updateRPM_speeds_empty by exact He.
  assert (Hm : is_u16 (Z.min (_minFrequency s) (_maxFrequency s)))
    by (unfold is_u16 in *; lia).
  rewrite !rpm_of_u16 by assumption.
  eexists _, _. split; [reflexivity|].
  split; [simpl; now rewrite <- app_assoc|].
  split; [reflexivity|].
  unfold is_u16 in *. split; [split|].
  - apply Z.div_pos; lia.
  - apply Z.div_le_mono; lia.
  - apply Z.lt_succ_r. apply Z.div_lt_upper_bound; lia.
Qed.

Lemma published_bounds_in_order_witness :
  valid (set_minFrequency 50000 default_spindle) /\
  _speeds (speeds (set_minFrequency 50000 default_spindle)) = [] /\
  _speeds (speeds (updateRPM (set_minFrequency 50000 default_spindle)))
    = [240; 240].
Proof.
  assert (Hv : valid (set_minFrequency 50000 default_spindle))
    by (unfold valid, is_u16; simpl; lia).
  split; [exact Hv|]. split; [reflexivity|].
  destruct (published_bounds_in_order
              (set_minFrequency 50000 default_spindle) Hv eq_refl)
    as (a & b & E & _).
  rewrite E. injection E as <- <-. reflexivity.
Defined.

(** ** The status cursor *)

Lemma after_status_poll
    (data : ModbusCommand) (response : list byte) (s : BD600Spindle) :
  after data (StatusPoll response) s
  = set_reg (if reg s <? 3 then reg s + 1 else 0) s.
Proof. simpl. destruct (reg s <? 3); reflexivity. Qed.

Lemma run_cons (data : ModbusCommand) (e : Event) (events : list Event)
    (s : BD600Spindle) :
  run data (e :: events) s = run data events (after data e s).
Proof. reflexivity. Qed.

Lemma status_polls_only_reg
    (data : ModbusCommand) (response : list byte) (n : nat)
    (s : BD600Spindle) :
  run data (status_polls n response) s
  = set_reg (reg (run data (status_polls n response) s)) s.
Proof.
  unfold status_polls. revert s. induction n as [|n IH]; intros s.
  - destruct s. reflexivity.
  - rewrite replicate_S, run_cons, after_status_poll.
    rewrite IH at 1. reflexivity.
Qed.

Lemma status_polls_in_range
    (data : ModbusCommand) (response : list byte) (n : nat)
    (s : BD600Spindle) :
  0 <= reg s <= 3 ->
  0 <= reg (run data (status_polls n response) s) <= 3.
Proof.
  unfold status_polls. revert s. induction n as [|n IH]; intros s Hr.
  - exact Hr.
  - rewrite replicate_S, run_cons, after_status_poll. apply IH.
    destruct (Z.ltb_spec (reg s) 3); simpl; lia.
Qed.

Lemma status_polls_climb
    (data : ModbusCommand) (response : list byte) (n : nat)
    (s : BD600Spindle) :
  reg s <= 0 ->
  Z.of_nat n <= - reg s ->
  reg (run data (status_polls n response) s) = reg s + Z.of_nat n.
Proof.
  unfold status_polls. revert s. induction n as [|n IH]; intros s Hr Hn.
  - simpl. lia.
  - rewrite replicate_S, run_cons, after_status_poll.
    destruct (Z.ltb_spec (reg s) 3); [|lia].
    rewrite IH; simpl; lia.
Qed.

(** X14: [reg] has no initialiser, so the cursor may start anywhere.  A
    status poll changes nothing of the driver but the cursor.  From a cursor
    that is not negative the first poll brings it into 0..3, where it stays;
    from a negative cursor [r] every poll adds one, so that it takes [-r]
    polls to reach 0.  The register byte sent is the low eight bits of the
    cursor. *)
Theorem status_cursor_from_anywhere
    (data : ModbusCommand) (response : list byte) (n : nat)
    (s : BD600Spindle) :
  run data (status_polls n response) s
    = set_reg (reg (run data (status_polls n response) s)) s /\
  (0 <= reg s -> (0 < n)%nat ->
   0 <= reg (run data (status_polls n response) s) <= 3) /\
  (reg s < 0 -> Z.of_nat n <= - reg s ->
   reg (run data (status_polls n response) s) = reg s + Z.of_nat n) /\
  (has_room data ->
   (fun b => byte_to_Z b) <$> msg (get_status_ok data s).1.1 !! 3%nat
   = Some (reg s mod 256)).
Proof.
  split; [apply status_polls_only_reg|]. split; [|split].
  - intros Hr Hn. destruct n as [|n]; [lia|].
    unfold status_polls. rewrite replicate_S, run_cons, after_status_poll.
    apply status_polls_in_range.
    destruct (Z.ltb_spec (reg s) 3); simpl; lia.
  - intros Hr Hn. apply status_polls_climb; lia.
  - intros Hroom. open_command data Hroom. simpl.
    now rewrite byte_to_Z_to_byte.
Qed.

Lemma status_cursor_from_anywhere_witness :
  0 <= reg (set_reg 77 default_spindle) /\
  reg (set_reg (-2) default_spindle) < 0 /\
  reg (run blank_command (status_polls 1 []) (set_reg 77 default_spindle))
    = 0 /\
  reg (run blank_command (status_polls 2 []) (set_reg (-2) default_spindle))
    = 0 /\
  (fun b => byte_to_Z b)
    <$> msg (get_status_ok blank_command (set_reg (-2) default_spindle)).1.1
        !! 3%nat
  = Some 254.
Proof.
  assert (H1 : 0 <= reg (set_reg 77 default_spindle)) by (simpl; lia).
  assert (H2 : reg (set_reg (-2) default_spindle) < 0) by (simpl; lia).
  assert (Hr : has_room blank_command) by (unfold has_room; simpl; lia).
  split; [exact H1|]. split; [exact H2|].
  split; [reflexivity|]. split.
  - destruct (status_cursor_from_anywhere blank_command [] 2
                (set_reg (-2) default_spindle)) as (_ & _ & Hc & _).
    rewrite Hc; [reflexivity | exact H2 | simpl; lia].
  - destruct (status_cursor_from_anywhere blank_command [] 0
                (set_reg (-2) default_spindle)) as (_ & _ & _ & Hb).
    rewrite (Hb Hr). reflexivity.
Defined.

(** ** The discovery sequence as a whole *)

Lemma updateRPM_maxRpmAt50Hz (s : BD600Spindle) :
  _maxRpmAt50Hz (updateRPM s) = _maxRpmAt50Hz s.
Proof. updateRPM_cases s; reflexivity. Qed.

Lemma discover_max_frequency
    (r : list byte) (v : Z) (data : ModbusCommand) (s : BD600Spindle) :
  read_u16 r = Some v ->
  discover (-1) r data s
  = Some (set_msg 3 5 (read_setting_prologue data), true,
          set_maxFrequency v s).
Proof.
  intros H. unfold discover. cbn [initialization_sequence mbind option_bind].
  unfold parse_max_frequency. rewrite H. reflexivity.
Qed.

Lemma discover_min_frequency
    (r : list byte) (v : Z) (data : ModbusCommand) (s : BD600Spindle) :
  read_u16 r = Some v ->
  discover (-2) r data s
  = Some (set_msg 3 11 (read_setting_prologue data), true,
          log_event
            (InfoFreqRange (v ÷ 100) (_maxFrequency s ÷ 100)
               (v ÷ 100 * 60) (_maxFrequency s ÷ 100 * 60))
            (set_minFrequency v s)).
Proof.
  intros H. unfold discover. cbn [initialization_sequence mbind option_bind].
  unfold parse_min_frequency. rewrite H. reflexivity.
Qed.

Lemma discover_rated_rpm
    (r : list byte) (v : Z) (data : ModbusCommand) (s : BD600Spindle) :
  read_u16 r = Some v ->
  discover (-3) r data s
  = Some (set_msg 3 144 (read_setting_prologue data), true,
          updateRPM (log_event (InfoRatedRpm v) (set_maxRpmAt50Hz v s))).
Proof.
  intros H. unfold discover. cbn [initialization_sequence mbind option_bind].
  unfold parse_rated_rpm. rewrite H. reflexivity.
Qed.

Lemma discover_poles
    (r : list byte) (v : Z) (data : ModbusCommand) (s : BD600Spindle) :
  read_u8 r = Some v ->
  2 <= v <= 4 ->
  discover (-4) r data s
  = Some (set_msg 3 143 (set_rx_length 5 (read_setting_prologue data)), true,
          updateRPM (log_event (InfoPoles v) (set_numberPoles v s))).
Proof.
  intros H Hv. unfold discover. cbn [initialization_sequence mbind option_bind].
  unfold parse_poles. rewrite H. cbn [mbind option_bind].
  destruct (Z.leb_spec v 4); [|lia]. destruct (Z.geb_spec v 2); [|lia].
  reflexivity.
Qed.

(** X15: the discovery steps -1 to -4, answered with a maximum frequency
    [vmax], a minimum frequency [vmin], a rated RPM and a pole count from 2
    to 4, are all accepted.  Afterwards [_maxFrequency] is [vmax],
    [_minFrequency] is the smaller of [vmin] and [vmax], and the slop is
    [max (vmax / 40) 1]; on a speed table that was empty the bounds
    [min vmin vmax * 60 / 100] and [vmax * 60 / 100] have been published,
    once. *)
Theorem discovery_calibrates
    (data : ModbusCommand) (s : BD600Spindle) (r1 r2 r3 r4 : list byte)
    (vmax vmin rpm poles : Z) :
  _speeds (speeds s) = [] ->
  read_u16 r1 = Some vmax ->
  read_u16 r2 = Some vmin ->
  read_u16 r3 = Some rpm ->
  read_u8 r4 = Some poles ->
  2 <= poles <= 4 ->
  exists s' : BD600Spindle,
    run_discovery [(-1, r1); (-2, r2); (-3, r3); (-4, r4)] data s
      = Some ([true; true; true; true], s') /\
    _maxFrequency s' = vmax /\
    _minFrequency s' = Z.min vmin vmax /\
    _maxRpmAt50Hz s' = rpm /\
    _numberPoles s' = poles /\
    _slop s' = Z.max (vmax / 40) 1 /\
    _speeds (speeds s') = [Z.min vmin vmax * 60 / 100; vmax * 60 / 100] /\
    published_count (speeds s') = S (published_count (speeds s)).
Proof.
  intros He H1 H2 H3 H4 Hp.
  pose proof (read_u16_is_u16 r1 vmax H1) as Umax.
  pose proof (read_u16_is_u16 r2 vmin H2) as Umin.
  cbn [run_discovery].
  rewrite (discover_max_frequency r1 vmax) by exact H1.
  cbn [mbind option_bind].
  rewrite (discover_min_frequency r2 vmin) by exact H2.
  cbn [mbind option_bind].
  rewrite (discover_rated_rpm r3 rpm) by exact H3.
  cbn [mbind option_bind].
  rewrite (discover_poles r4 poles) by assumption.
  cbn [mbind option_bind].
  eexists. split; [reflexivity|].
  set (s2 := updateRPM (log_event (InfoRatedRpm rpm) _)).
  set (s4 := log_event (InfoPoles poles) (set_numberPoles poles s2)).
  set (s3 := updateRPM s4).
  assert (E2 : speeds s2
    = setupSpeeds vmax
        (shelfSpeeds (Z.min vmin vmax * 60 / 100) (vmax * 60 / 100)
           (speeds s))).
  { unfold s2. rewrite updateRPM_speeds_empty by exact He. simpl.
    rewrite !rpm_of_u16; [reflexivity | exact Umax |].
    unfold is_u16 in *. lia. }
  assert (M2 : _minFrequency s2 = Z.min vmin vmax)
    by (unfold s2; now rewrite updateRPM_minFrequency).
  assert (X2 : _maxFrequency s2 = vmax)
    by (unfold s2; now rewrite updateRPM_maxFrequency).
  assert (R2 : _maxRpmAt50Hz s2 = rpm)
    by (unfold s2; now rewrite updateRPM_maxRpmAt50Hz).
  clearbody s2.
  assert (Hne : _speeds (speeds s4) <> [])
    by (unfold s4; simpl; rewrite E2; discriminate).
  assert (E3 : speeds s3 = setupSpeeds vmax (speeds s2)).
  { unfold s3. rewrite updateRPM_speeds_filled by exact Hne.
    unfold s4. simpl. now rewrite X2. }
  assert (X3 : _maxFrequency s3 = vmax)
    by (unfold s3; rewrite updateRPM_maxFrequency; exact X2).
  assert (M3 : _minFrequency s3 = Z.min vmin vmax).
  { unfold s3. rewrite updateRPM_minFrequency. unfold s4. simpl. lia. }
  assert (R3 : _maxRpmAt50Hz s3 = rpm)
    by (unfold s3; rewrite updateRPM_maxRpmAt50Hz; exact R2).
  assert (P3 : _numberPoles s3 = poles)
    by (unfold s3; now rewrite updateRPM_numberPoles).
  assert (L3 : _slop s3 = Z.max (vmax / 40) 1).
  { unfold s3. rewrite updateRPM_slop. unfold s4. simpl. rewrite X2.
    unfold is_u16 in Umax. now rewrite Z.quot_div_nonneg by lia. }
  clearbody s3. rewrite E3, E2.
  repeat (split; [assumption|]).
  split; [reflexivity|].
  rewrite !published_count_setupSpeeds. apply published_count_shelfSpeeds.
Qed.

Lemma discovery_calibrates_witness :
  _speeds (speeds default_spindle) = [] /\
  read_u16 [x01; x01; x03; x05; x75; x30] = Some 30000 /\
  read_u16 [x01; x01; x03; x0b; x88; xb8] = Some 35000 /\
  read_u16 [x01; x01; x03; x90; x05; xdc] = Some 1500 /\
  read_u8 [x01; x01; x03; x8f; x04] = Some 4 /\
  (run_discovery
     [(-1, [x01; x01; x03; x05; x75; x30]);
      (-2, [x01; x01; x03; x0b; x88; xb8]);
      (-3, [x01; x01; x03; x90; x05; xdc]);
      (-4, [x01; x01; x03; x8f; x04])]
     blank_command default_spindle
     ≫= fun r => Some (_minFrequency r.2, _speeds (speeds r.2), _slop r.2))
  = Some (30000, [18000; 18000], 750).
Proof.
  split; [reflexivity|]. split; [reflexivity|]. split; [reflexivity|].
  split; [reflexivity|]. split; [reflexivity|].
  destruct (discovery_calibrates blank_command default_spindle
              [x01; x01; x03; x05; x75; x30]
              [x01; x01; x03; x0b; x88; xb8]
              [x01; x01; x03; x90; x05; xdc]
              [x01; x01; x03; x8f; x04]
              30000 35000 1500 4
              eq_refl eq_refl eq_refl eq_refl eq_refl)
    as (s' & E & _ & Hmin & _ & _ & Hslop & Hs & _); [lia|].
  rewrite E. simpl. rewrite Hmin, Hs, Hslop. reflexivity.
Defined.

(** X16: the RPM range logged at step -2 is computed as [f / 100 * 60], the
    bounds a calibration publishes as [f * 60 / 100].  For a minimum
    frequency not above the maximum, on an empty speed table, the logged RPM
    is never above the published one and is less than 60 RPM below it; the
    two are equal when the frequency is a whole number of Hz. *)
Theorem logged_range_below_published
    (response : list byte) (v : Z) (s : BD600Spindle) :
  valid s ->
  _speeds (speeds s) = [] ->
  read_u16 response = Some v ->
  v <= _maxFrequency s ->
  exists (s2 : BD600Spindle) (minRPM maxRPM : Z),
    parse_min_frequency response s = Some (true, s2) /\
    log s2
      = log s
        ++ [InfoFreqRange (v / 100) (_maxFrequency s / 100)
              (v / 100 * 60) (_maxFrequency s / 100 * 60)] /\
    _speeds (speeds (updateRPM s2)) = [minRPM; maxRPM] /\
    v / 100 * 60 <= minRPM < v / 100 * 60 + 60 /\
    _maxFrequency s / 100 * 60 <= maxRPM < _maxFrequency s / 100 * 60 + 60 /\
    (v mod 100 = 0 -> minRPM = v / 100 * 60).
Proof.
  intros [_ Hmax] He Hr Hle.
  pose proof (read_u16_is_u16 response v Hr) as Hv.
  unfold is_u16 in Hmax, Hv.
  exists (log_event
            (InfoFreqRange (v ÷ 100) (_maxFrequency s ÷ 100)
               (v ÷ 100 * 60) (_maxFrequency s ÷ 100 * 60))
            (set_minFrequency v s)).
  exists (v * 60 / 100), (_maxFrequency s * 60 / 100).
  split. { unfold parse_min_frequency. rewrite Hr. reflexivity. }
  split. { simpl. now rewrite !Z.quot_div_nonneg by lia. }
  split.
  { rewrite updateRPM_speeds_empty by exact He. simpl.
    rewrite Z.min_l by lia.
    rewrite !rpm_of_u16 by (unfold is_u16; lia). reflexivity. }
  split; [Z.div_mod_to_equations; lia|].
  split; [Z.div_mod_to_equations; lia|].
  intros Hm. Z.div_mod_to_equations. lia.
Qed.

Lemma logged_range_below_published_witness :
  valid (set_maxFrequency 40000 default_spindle) /\
  read_u16 [x01; x01; x03; x0b; x2f; x12] = Some 12050 /\
  (parse_min_frequency [x01; x01; x03; x0b; x2f; x12]
     (set_maxFrequency 40000 default_spindle)
     ≫= fun r => Some (log r.2))
  = Some [InfoFreqRange 120 400 7200 24000] /\
  (parse_min_frequency [x01; x01; x03; x0b; x2f; x12]
     (set_maxFrequency 40000 default_spindle)
     ≫= fun r => Some (_speeds (speeds (updateRPM r.2))))
  = Some [7230; 24000].
Proof.
  assert (Hv : valid (set_maxFrequency 40000 default_spindle))
    by (unfold valid, is_u16; simpl; lia).
  split; [exact Hv|]. split; [reflexivity|]. split; [|reflexivity].
  destruct (logged_range_below_published
              [x01; x01; x03; x0b; x2f; x12] 12050
              (set_maxFrequency 40000 default_spindle) Hv eq_refl eq_refl)
    as (s2 & a & b & E & Hl & _); [simpl; lia|].
  rewrite E. cbn [mbind option_bind fst snd]. rewrite Hl. reflexivity.
Defined.

(** ** The end of the discovery sequence *)

(** C4 (as amended): for an index that is none of -1, ..., -6,
    [initialization_sequence] returns the null parser and selects no
    register: byte 3 of the command is left as it was.  The command is not
    left alone, though: what all read requests share is written before the
    [switch], so both lengths become 6, bytes 1 and 2 become [01 03] and
    bytes 4 and 5 become [00 00]; the address byte and the bytes from offset
    6 on are not written. *)
Theorem initialization_sequence_terminator
    (index : Z) (data : ModbusCommand) :
  index ∉ discovery_steps ->
  (initialization_sequence index data).2 = None /\
  (initialization_sequence index data).1 = read_setting_prologue data /\
  tx_length (initialization_sequence index data).1 = 6 /\
  rx_length (initialization_sequence index data).1 = 6 /\
  msg (initialization_sequence index data).1 !! 3%nat = msg data !! 3%nat /\
  untouched data (initialization_sequence index data).1 /\
  (has_room data ->
   exists b3 : byte,
     msg data !! 3%nat = Some b3 /\
     payload (initialization_sequence index data).1
       = [x01; x03; b3; x00; x00]).
Proof.
  intros Hout.
  rewrite (initialization_sequence_default index data Hout). cbn [fst snd].
  split; [reflexivity|]. split; [reflexivity|].
  split; [reflexivity|]. split; [reflexivity|].
  split.
  { destruct data as [tx rx m]. simpl.
    rewrite !list_lookup_insert_ne by lia. reflexivity. }
  split; [apply untouched_prologue|].
  intros Hroom. open_command data Hroom. eexists. split; reflexivity.
Qed.

Lemma initialization_sequence_terminator_witness :
  (0 ∉ discovery_steps) /\
  (initialization_sequence 0 stale_command).2 = None /\
  tx_length (initialization_sequence 0 stale_command).1 = 6 /\
  msg (initialization_sequence 0 stale_command).1 !! 3%nat = Some xff.
Proof.
  assert (H : 0 ∉ discovery_steps) by (rewrite discovery_steps_spec; lia).
  split; [exact H|].
  destruct (initialization_sequence_terminator 0 stale_command H)
    as (Hp & _ & Htx & _ & H3 & _).
  split; [exact Hp|]. split; [exact Htx|]. rewrite H3. reflexivity.
Defined.

(** C4, as stated, fails: index 0 is no discovery step, and the call still
    writes a command.  A command with lengths 0 and every byte [ff] comes
    back with lengths 6 and the bytes [ff 01 03 ff 00 00 ff ...]: all of a
    read request but its register. *)
Lemma initialization_sequence_terminator_writes_command :
  (0 ∉ discovery_steps) /\
  (initialization_sequence 0 stale_command).2 = None /\
  (initialization_sequence 0 stale_command).1 <> stale_command /\
  (initialization_sequence 0 stale_command).1
    = mkModbusCommand 6 6
        ([xff; x01; x03; xff; x00; x00] ++ replicate 10 xff).
Proof.
  split; [rewrite discovery_steps_spec; lia|].
  split; [reflexivity|].
  split; [discriminate | reflexivity].
Qed.

(** ** The status cursor of a new driver *)

(** C9: [reg] has no initialiser and the constructor does not assign it, so
    a new driver polls from whatever the cursor holds.  From 77 the first
    frame is [04 03 4d 00 00], a read of register 0x4d, and only then is the
    cursor 0; from -2 the first two polls read the registers [fe] and [ff]
    before the cycle 0, 1, 2, 3 begins. *)
Theorem get_status_ok_uninitialised_cursor :
  payload (get_status_ok blank_command
             (BD600Spindle_new 77 0 0 0 empty_table)).1.1
    = [x04; x03; x4d; x00; x00] /\
  reg (get_status_ok blank_command
         (BD600Spindle_new 77 0 0 0 empty_table)).1.2 = 0 /\
  status_registers 7 blank_command (BD600Spindle_new (-2) 0 0 0 empty_table)
    = [Some xfe; Some xff; Some x00; Some x01; Some x02; Some x03;
       Some x00].
Proof. split; [reflexivity|]. split; reflexivity. Qed.
